(** * Checkout price recalculation (saleor/checkout/calculations.py)

    A shallow embedding of the price recalculation engine and of the read
    operations built on it.

    Modelling conventions.
    - [Decimal] amounts are exact rationals in canonical form ([Qc]); the
      28-digit context precision of Python's decimal module is not modelled.
    - Every money value of one checkout is in the checkout's currency (the
      data model has no multi-currency checkout), so a [Money] is its amount
      and a [TaxedMoney] is a pair of amounts; the checkout's [currency]
      field only selects the precision of [quantize_price].
    - Python mutates the checkout and the line objects in place and hands
      the same objects back. The [State] of a request holds the objects the
      arguments [checkout_info] and [lines] refer to ([checkout] is
      [checkout_info.checkout], one object), the clock, the database rows
      and the record of calls; a function of the source becomes a function
      from its remaining arguments and the state to the new state. The
      clock stands still during one call.
    - Calls to collaborators and database writes are recorded as [Event]s. *)

From Stdlib Require Import ZArith QArith Qcanon Qround List String Bool Lia.
From Stdlib Require Import Permutation.
Import ListNotations.

(** ** Decimal and money *)

Definition Decimal := Qc.
Definition Money := Decimal.
Definition datetime := Z.
Definition timedelta := Z.
Bind Scope Z_scope with datetime timedelta.

Record TaxedMoney := mkTaxedMoney { net : Money; gross : Money }.

(** [TaxedMoney(net=a, gross=b)]; [Money(amount, currency)] is [amount]. *)
Definition zero_taxed_money (currency : string) : TaxedMoney :=
  mkTaxedMoney 0%Qc 0%Qc.

(** [TaxedMoney.__add__] *)
Definition taxed_add (a b : TaxedMoney) : TaxedMoney :=
  mkTaxedMoney (net a + net b)%Qc (gross a + gross b)%Qc.

(** [TaxedMoney.__sub__] with a [Money] on the right. *)
Definition taxed_sub_money (a : TaxedMoney) (m : Money) : TaxedMoney :=
  mkTaxedMoney (net a - m)%Qc (gross a - m)%Qc.

(** [TaxedMoney.__lt__] compares the gross amounts. *)
Definition taxed_ltb (a b : TaxedMoney) : bool :=
  match (gross a ?= gross b)%Qc with Lt => true | _ => false end.

(** Python's [max(a, b)]: [a] unless [b > a]; on TaxedMoney [b > a] is
    answered by the reflected [a < b]. *)
Definition taxed_max (a b : TaxedMoney) : TaxedMoney :=
  if taxed_ltb a b then b else a.

(** [sum(values, start)] *)
Definition taxed_sum (values : list TaxedMoney) (start : TaxedMoney)
  : TaxedMoney :=
  fold_left taxed_add values start.

Inductive Error :=
| StopIteration
| DivisionByZero
| InvalidOperation.

Definition Result (A : Type) := sum Error A.

(** [Decimal(n)] for an int [n]. *)
Definition decimal_of_int (n : Z) : Decimal := Q2Qc (inject_Z n).

(** [Decimal.__truediv__] by an int: a zero divisor raises, DivisionByZero
    for a nonzero dividend and InvalidOperation for 0 / 0. *)
Definition decimal_div (a : Decimal) (n : Z) : Result Decimal :=
  if (n =? 0)%Z then
    if (Qnum (this a) =? 0)%Z then inl InvalidOperation else inl DivisionByZero
  else inr (a / decimal_of_int n)%Qc.

(** [TaxedMoney.__truediv__] by an int: the net amount is divided, then the
    gross amount. *)
Definition taxed_div (a : TaxedMoney) (n : Z) : Result TaxedMoney :=
  match decimal_div (net a) n with
  | inl e => inl e
  | inr net_amount =>
      match decimal_div (gross a) n with
      | inl e => inl e
      | inr gross_amount => inr (mkTaxedMoney net_amount gross_amount)
      end
  end.

(** ** Quantization *)

(** [10 ** places] *)
Definition pow10 (places : nat) : positive :=
  Z.to_pos (10 ^ Z.of_nat places).

(** Rounding to the nearest integer, ties away from zero (ROUND_HALF_UP):
    2.5 gives 3 and -2.5 gives -3. *)
Definition round_half_up (q : Q) : Z :=
  let f := Qfloor q in
  match (q - inject_Z f ?= 1 # 2)%Q with
  | Lt => f
  | Gt => (f + 1)%Z
  | Eq => if (0 <=? f)%Z then (f + 1)%Z else f
  end.

(** [Decimal.quantize(Decimal(10) ** -places, rounding=ROUND_HALF_UP)] *)
Definition quantize_decimal (places : nat) (x : Decimal) : Decimal :=
  Q2Qc (round_half_up (this x * inject_Z (Zpos (pow10 places)))
          # pow10 places).

Definition is_quantized (places : nat) (x : Decimal) : Prop :=
  quantize_decimal places x = x.

Definition taxed_is_quantized (places : nat) (t : TaxedMoney) : Prop :=
  is_quantized places (net t) /\ is_quantized places (gross t).

(** A decimal literal [n / 10^places], e.g. [dec 1050 2] is 10.50. *)
Definition dec (n : Z) (places : nat) : Decimal := Q2Qc (n # pow10 places).

(** ** Data model *)

(** Addresses, discounts and channels are only handed on to collaborators;
    they are identified by their primary key. *)
Definition Address := Z.
Definition DiscountInfo := Z.
Definition Channel := Z.
Bind Scope Z_scope with Address DiscountInfo Channel.

(** The model fields of [Checkout] that this module reads or writes. *)
Record Checkout := mkCheckout {
  currency : string;
  tax_exemption : bool;
  price_expiration : datetime;
  total_net_amount : Decimal;
  total_gross_amount : Decimal;
  subtotal_net_amount : Decimal;
  subtotal_gross_amount : Decimal;
  shipping_price_net_amount : Decimal;
  shipping_price_gross_amount : Decimal;
  shipping_tax_rate : Decimal;
  voucher_code : option string;
  translated_discount_name : option string;
  discount_amount : Decimal;
  discount_name : option string
}.

Record CheckoutLine := mkCheckoutLine {
  pk : Z;
  quantity : Z;
  total_price_net_amount : Decimal;
  total_price_gross_amount : Decimal;
  tax_rate : Decimal
}.

Record CheckoutLineInfo := mkCheckoutLineInfo {
  line : CheckoutLine;
  variant : Z
}.

Record TaxConfiguration := mkTaxConfiguration {
  prices_entered_with_tax : bool
}.

Record CheckoutInfo := mkCheckoutInfo {
  checkout : Checkout;
  channel : Channel;
  shipping_address : option Address;
  billing_address : option Address;
  tax_configuration : TaxConfiguration
}.

Record TaxLineData := mkTaxLineData {
  tl_total_net_amount : Decimal;
  tl_total_gross_amount : Decimal;
  tl_tax_rate : Decimal
}.

Record TaxData := mkTaxData {
  td_shipping_price_net_amount : Decimal;
  td_shipping_price_gross_amount : Decimal;
  td_shipping_tax_rate : Decimal;
  td_lines : list TaxLineData
}.

(** *** Composite money fields (getters and setters of the model) *)

Definition total (c : Checkout) : TaxedMoney :=
  mkTaxedMoney (total_net_amount c) (total_gross_amount c).
Definition subtotal (c : Checkout) : TaxedMoney :=
  mkTaxedMoney (subtotal_net_amount c) (subtotal_gross_amount c).
Definition shipping_price (c : Checkout) : TaxedMoney :=
  mkTaxedMoney (shipping_price_net_amount c) (shipping_price_gross_amount c).
Definition total_price (l : CheckoutLine) : TaxedMoney :=
  mkTaxedMoney (total_price_net_amount l) (total_price_gross_amount l).

Definition set_total (c : Checkout) (v : TaxedMoney) : Checkout :=
  mkCheckout (currency c) (tax_exemption c) (price_expiration c)
    (net v) (gross v)
    (subtotal_net_amount c) (subtotal_gross_amount c)
    (shipping_price_net_amount c) (shipping_price_gross_amount c)
    (shipping_tax_rate c) (voucher_code c) (translated_discount_name c)
    (discount_amount c) (discount_name c).

Definition set_subtotal (c : Checkout) (v : TaxedMoney) : Checkout :=
  mkCheckout (currency c) (tax_exemption c) (price_expiration c)
    (total_net_amount c) (total_gross_amount c)
    (net v) (gross v)
    (shipping_price_net_amount c) (shipping_price_gross_amount c)
    (shipping_tax_rate c) (voucher_code c) (translated_discount_name c)
    (discount_amount c) (discount_name c).

Definition set_shipping_price (c : Checkout) (v : TaxedMoney) : Checkout :=
  mkCheckout (currency c) (tax_exemption c) (price_expiration c)
    (total_net_amount c) (total_gross_amount c)
    (subtotal_net_amount c) (subtotal_gross_amount c)
    (net v) (gross v)
    (shipping_tax_rate c) (voucher_code c) (translated_discount_name c)
    (discount_amount c) (discount_name c).

Definition set_shipping_tax_rate (c : Checkout) (r : Decimal) : Checkout :=
  mkCheckout (currency c) (tax_exemption c) (price_expiration c)
    (total_net_amount c) (total_gross_amount c)
    (subtotal_net_amount c) (subtotal_gross_amount c)
    (shipping_price_net_amount c) (shipping_price_gross_amount c)
    r (voucher_code c) (translated_discount_name c)
    (discount_amount c) (discount_name c).

Definition set_price_expiration (c : Checkout) (t : datetime) : Checkout :=
  mkCheckout (currency c) (tax_exemption c) t
    (total_net_amount c) (total_gross_amount c)
    (subtotal_net_amount c) (subtotal_gross_amount c)
    (shipping_price_net_amount c) (shipping_price_gross_amount c)
    (shipping_tax_rate c) (voucher_code c) (translated_discount_name c)
    (discount_amount c) (discount_name c).

Definition set_total_price (l : CheckoutLine) (v : TaxedMoney)
  : CheckoutLine :=
  mkCheckoutLine (pk l) (quantity l) (net v) (gross v) (tax_rate l).

Definition set_tax_rate (l : CheckoutLine) (r : Decimal) : CheckoutLine :=
  mkCheckoutLine (pk l) (quantity l) (total_price_net_amount l)
    (total_price_gross_amount l) r.

(** [line_info.line = l] (the info object keeps its other attributes). *)
Definition with_line (li : CheckoutLineInfo) (l : CheckoutLine)
  : CheckoutLineInfo :=
  mkCheckoutLineInfo l (variant li).

(** [checkout_info.checkout = c] *)
Definition with_checkout (ci : CheckoutInfo) (c : Checkout) : CheckoutInfo :=
  mkCheckoutInfo c (channel ci) (shipping_address ci) (billing_address ci)
    (tax_configuration ci).

(** ** Effects *)

(** What a call leaves behind outside the objects it returns. *)
Inductive Event :=
| PluginCall (method : string)
| BaseCall (function : string)
| FlatRatesCall
| DbSave (update_fields : list string)
| DbBulkUpdate (pks : list Z) (fields : list string).

(** The persisted rows. *)
Record Database := mkDatabase {
  checkout_row : Checkout;
  line_rows : list CheckoutLine
}.

(** The objects of one request and what is outside them: the clock read
    by [timezone.now()], the database and the record of calls. *)
Record State := mkState {
  checkout_info : CheckoutInfo;
  lines : list CheckoutLineInfo;
  now : datetime;
  db : Database;
  log : list Event
}.

Definition emit (evs : list Event) (st : State) : State :=
  mkState (checkout_info st) (lines st) (now st) (db st) (log st ++ evs).

Definition put_checkout (c : Checkout) (st : State) : State :=
  mkState (with_checkout (checkout_info st) c) (lines st) (now st) (db st)
    (log st).

Definition put_lines (ls : list CheckoutLineInfo) (st : State) : State :=
  mkState (checkout_info st) ls (now st) (db st) (log st).

Definition put_db (d : Database) (st : State) : State :=
  mkState (checkout_info st) (lines st) (now st) d (log st).

(** [checkout_info.checkout] of the state. *)
Definition the_checkout (st : State) : Checkout := checkout (checkout_info st).

(** ** Collaborators *)

(** The interface of [PluginsManager] used here. Each method sees the
    checkout and the lines as they are at the time of the call. *)
Record PluginsManager := mkPluginsManager {
  calculate_checkout_line_total :
    CheckoutInfo -> list CheckoutLineInfo -> CheckoutLineInfo ->
    option Address -> list DiscountInfo -> TaxedMoney;
  calculate_checkout_line_unit_price :
    CheckoutInfo -> list CheckoutLineInfo -> CheckoutLineInfo ->
    option Address -> list DiscountInfo -> TaxedMoney;
  get_checkout_line_tax_rate :
    CheckoutInfo -> list CheckoutLineInfo -> CheckoutLineInfo ->
    option Address -> list DiscountInfo -> TaxedMoney -> Decimal;
  calculate_checkout_shipping :
    CheckoutInfo -> list CheckoutLineInfo ->
    option Address -> list DiscountInfo -> TaxedMoney;
  get_checkout_shipping_tax_rate :
    CheckoutInfo -> list CheckoutLineInfo ->
    option Address -> list DiscountInfo -> TaxedMoney -> Decimal;
  calculate_checkout_subtotal :
    CheckoutInfo -> list CheckoutLineInfo ->
    option Address -> list DiscountInfo -> TaxedMoney;
  calculate_checkout_total :
    CheckoutInfo -> list CheckoutLineInfo ->
    option Address -> list DiscountInfo -> TaxedMoney;
  get_taxes_for_checkout :
    CheckoutInfo -> list CheckoutLineInfo -> option TaxData
}.

(** The functions of the module [base_calculations] used here. *)
Record BaseCalculations := mkBaseCalculations {
  calculate_base_line_total_price :
    CheckoutLineInfo -> Channel -> list DiscountInfo -> Money;
  calculate_base_line_unit_price :
    CheckoutLineInfo -> Channel -> list DiscountInfo -> Money;
  base_checkout_delivery_price :
    CheckoutInfo -> list CheckoutLineInfo -> Money;
  base_checkout_total :
    CheckoutInfo -> list DiscountInfo -> list CheckoutLineInfo -> Money
}.

(** [TaxCalculationStrategy] *)
Definition TAX_APP : string := "TAX_APP".
Definition FLAT_RATES : string := "FLAT_RATES".

(** [if not discounts: discounts = []] *)
Definition discounts_or_empty (discounts : option (list DiscountInfo))
  : list DiscountInfo :=
  match discounts with
  | Some (d :: ds) => d :: ds
  | _ => []
  end.

(** [a or b] on optional addresses. *)
Definition or_address (a b : option Address) : option Address :=
  match a with
  | Some x => Some x
  | None => b
  end.

(** Direct assignments to the gross amount fields. *)
Definition set_total_gross_amount (c : Checkout) (a : Decimal) : Checkout :=
  set_total c (mkTaxedMoney (total_net_amount c) a).
Definition set_subtotal_gross_amount (c : Checkout) (a : Decimal) : Checkout :=
  set_subtotal c (mkTaxedMoney (subtotal_net_amount c) a).
Definition set_shipping_price_gross_amount (c : Checkout) (a : Decimal)
  : Checkout :=
  set_shipping_price c (mkTaxedMoney (shipping_price_net_amount c) a).
Definition set_total_price_gross_amount (l : CheckoutLine) (a : Decimal)
  : CheckoutLine :=
  set_total_price l (mkTaxedMoney (total_price_net_amount l) a).

(** The fields named in [update_fields] of [checkout.save]. *)
Definition save_update_fields : list string :=
  ["voucher_code"; "total_net_amount"; "total_gross_amount";
   "subtotal_net_amount"; "subtotal_gross_amount";
   "shipping_price_net_amount"; "shipping_price_gross_amount";
   "shipping_tax_rate"; "price_expiration"; "translated_discount_name";
   "discount_amount"; "discount_name"; "currency"]%string.

Definition bulk_update_fields : list string :=
  ["total_price_net_amount"; "total_price_gross_amount"; "tax_rate"]%string.

(** [checkout.save(update_fields=...)]: the listed columns of the row take
    the values of the object; of the modelled fields only [tax_exemption]
    is not listed. *)
Definition save (st : State) : State :=
  let c := the_checkout st in
  let row := checkout_row (db st) in
  let row' :=
    mkCheckout (currency c) (tax_exemption row) (price_expiration c)
      (total_net_amount c) (total_gross_amount c)
      (subtotal_net_amount c) (subtotal_gross_amount c)
      (shipping_price_net_amount c) (shipping_price_gross_amount c)
      (shipping_tax_rate c) (voucher_code c) (translated_discount_name c)
      (discount_amount c) (discount_name c) in
  emit [DbSave save_update_fields]
    (put_db (mkDatabase row' (line_rows (db st))) st).

(** [checkout.lines.bulk_update(objs, fields)]: every row whose primary key
    is that of an object takes the three listed columns from it. *)
Definition bulk_update (st : State) : State :=
  let objs := map line (lines st) in
  let upd row :=
    match find (fun o => (pk o =? pk row)%Z) objs with
    | Some o =>
        mkCheckoutLine (pk row) (quantity row) (total_price_net_amount o)
          (total_price_gross_amount o) (tax_rate o)
    | None => row
    end in
  emit [DbBulkUpdate (map pk objs) bulk_update_fields]
    (put_db (mkDatabase (checkout_row (db st)) (map upd (line_rows (db st))))
       st).

(** ** Sample data

    Concrete collaborators, a checkout in USD with two lines, and tax data,
    on which the functions below can be evaluated. *)

Module Sample.

Definition precision (currency : string) : nat :=
  if String.eqb currency "JPY" then 0%nat else 2%nat.

Definition normalize (rate : Decimal) : Decimal := (rate / dec 100 0)%Qc.

Definition tax_rate_of (price : TaxedMoney) : Decimal :=
  if (Qnum (this (net price)) =? 0)%Z then 0%Qc
  else ((gross price - net price) / net price)%Qc.

Definition usd_checkout (expires : datetime) : Checkout :=
  mkCheckout "USD" false expires
    (dec 3300 2) (dec 3630 2) (dec 3000 2) (dec 3300 2)
    (dec 300 2) (dec 330 2) (dec 10 2)
    None None (dec 0 2) None.

Definition line_a : CheckoutLineInfo :=
  mkCheckoutLineInfo (mkCheckoutLine 1 2 (dec 2000 2) (dec 2200 2) (dec 10 2)) 71.
Definition line_b : CheckoutLineInfo :=
  mkCheckoutLineInfo (mkCheckoutLine 2 1 (dec 1000 2) (dec 1100 2) (dec 10 2)) 72.

Definition info (with_tax : bool) (expires : datetime) : CheckoutInfo :=
  mkCheckoutInfo (usd_checkout expires) 1 (Some 5%Z) None
    (mkTaxConfiguration with_tax).

(** A request at time 1000 whose rows hold what the objects hold. *)
Definition state (with_tax : bool) (expires : datetime) : State :=
  mkState (info with_tax expires) [line_a; line_b] 1000
    (mkDatabase (usd_checkout expires) [line line_a; line line_b]) [].

(** A plugin manager that prices every line at 10.005 net and 12.345 gross
    and answers the consolidated call with [tax_data]. *)
Definition manager (tax_data : option TaxData) : PluginsManager :=
  mkPluginsManager
    (fun _ _ _ _ _ => mkTaxedMoney (dec 10005 3) (dec 12345 3))
    (fun _ _ _ _ _ => mkTaxedMoney (dec 5 0) (dec 6 0))
    (fun _ _ _ _ _ _ => dec 23 2)
    (fun _ _ _ _ => mkTaxedMoney (dec 500 2) (dec 615 2))
    (fun _ _ _ _ _ => dec 23 2)
    (fun _ _ _ _ => mkTaxedMoney (dec 2001 2) (dec 2469 2))
    (fun _ _ _ _ => mkTaxedMoney (dec 2501 2) (dec 3084 2))
    (fun _ _ => tax_data).

(** Base prices: 10.00 a line, delivery 5.00, and a checkout total of
    22.00 for two lines (a voucher takes 3.00 off). *)
Definition base : BaseCalculations :=
  mkBaseCalculations
    (fun _ _ _ => dec 1000 2)
    (fun _ _ _ => dec 500 2)
    (fun _ _ => dec 500 2)
    (fun _ _ _ => dec 2200 2).

(** A flat-rate engine charging 10% on every line and on shipping of 5.00,
    with subtotal and total summed up from them. *)
Definition flat_rates (ci : CheckoutInfo) (ls : list CheckoutLineInfo)
  (with_tax : bool) (address : option Address)
  (discounts : option (list DiscountInfo))
  : CheckoutInfo * list CheckoutLineInfo :=
  let ls' :=
    map (fun li =>
           mkCheckoutLineInfo
             (mkCheckoutLine (pk (line li)) (quantity (line li))
                (dec 2000 2) (dec 2200 2) (dec 10 2))
             (variant li)) ls in
  let sub :=
    taxed_sum (map (fun li => total_price (line li)) ls')
      (zero_taxed_money (currency (checkout ci))) in
  let ship := mkTaxedMoney (dec 500 2) (dec 550 2) in
  let c := set_shipping_tax_rate (set_shipping_price (checkout ci) ship) (dec 10 2) in
  let c := set_subtotal c sub in
  let c := set_total c (taxed_add sub ship) in
  (with_checkout ci c, ls').

Definition tax_lines : list TaxLineData :=
  [mkTaxLineData (dec 20004 3) (dec 24605 3) (dec 23 0);
   mkTaxLineData (dec 1000 2) (dec 1230 2) (dec 23 0)].

Definition tax_data (entries : list TaxLineData) : TaxData :=
  mkTaxData (dec 500 2) (dec 615 2) (dec 23 0) entries.

Definition ttl : timedelta := 3600.

Definition gift_cards (c : Checkout) : Money := dec 900 2.

End Sample.

(** ** The functions of calculations.py *)

Section Calculations.

(** Imports whose code is not among the sources. *)
Variable get_currency_precision : string -> nat.
Variable normalize_tax_rate_for_db : Decimal -> Decimal.
Variable calculate_tax_rate : TaxedMoney -> Decimal.
Variable get_tax_calculation_strategy_for_checkout :
  CheckoutInfo -> list CheckoutLineInfo -> string.
Variable get_charge_taxes_for_checkout :
  CheckoutInfo -> list CheckoutLineInfo -> bool.
(** The flat-rate engine mutates the checkout and the lines it is given. *)
Variable update_checkout_prices_with_flat_rates :
  CheckoutInfo -> list CheckoutLineInfo -> bool -> option Address ->
  option (list DiscountInfo) -> CheckoutInfo * list CheckoutLineInfo.
Variable base_calculations : BaseCalculations.
Variable CHECKOUT_PRICES_TTL : timedelta.
(** [Checkout.get_total_gift_cards_balance] *)
Variable get_total_gift_cards_balance : Checkout -> Money.

(** Modelled from the spec: [quantize_price] of saleor/core/prices.py is not
    among the sources. It normalizes a TaxedMoney to the minor-unit
    precision of the currency, net and gross independently. The spec names
    no rule for ties; they are rounded half up (10.005 becomes 10.01 at two
    places). *)
Definition quantize_price (price : TaxedMoney) (currency : string)
  : TaxedMoney :=
  let places := get_currency_precision currency in
  mkTaxedMoney (quantize_decimal places (net price))
               (quantize_decimal places (gross price)).

Definition _remove_tax (st : State) : State :=
  let checkout := the_checkout st in
  let checkout := set_total_gross_amount checkout (total_net_amount checkout) in
  let checkout :=
    set_subtotal_gross_amount checkout (subtotal_net_amount checkout) in
  let checkout :=
    set_shipping_price_gross_amount checkout
      (shipping_price_net_amount checkout) in
  let checkout := set_shipping_tax_rate checkout (dec 0 2) in
  let lines_info :=
    map (fun line_info =>
           let l := line line_info in
           let total_price_net_amount := total_price_net_amount l in
           let l := set_total_price_gross_amount l total_price_net_amount in
           with_line line_info (set_tax_rate l (dec 0 2)))
        (lines st) in
  put_lines lines_info (put_checkout checkout st).

Definition _calculate_checkout_total (checkout : Checkout) (currency : string)
  : TaxedMoney :=
  let total := taxed_add (subtotal checkout) (shipping_price checkout) in
  quantize_price total currency.

Definition _calculate_checkout_subtotal (lines : list CheckoutLineInfo)
  (currency : string) : TaxedMoney :=
  let line_totals := map (fun line_info => total_price (line line_info)) lines in
  let total := taxed_sum line_totals (zero_taxed_money currency) in
  quantize_price total currency.

(** The loop of [_apply_tax_data] over [zip(lines, tax_data.lines)]: it
    ends with the shorter sequence, and the lines past it are not touched. *)
Fixpoint apply_tax_lines (currency : string) (lines : list CheckoutLineInfo)
  (tax_lines : list TaxLineData) : list CheckoutLineInfo :=
  match lines, tax_lines with
  | line_info :: lines', tax_line_data :: tax_lines' =>
      let l := line line_info in
      let l :=
        set_total_price l
          (quantize_price
             (mkTaxedMoney (tl_total_net_amount tax_line_data)
                           (tl_total_gross_amount tax_line_data))
             currency) in
      let l :=
        set_tax_rate l (normalize_tax_rate_for_db (tl_tax_rate tax_line_data)) in
      with_line line_info l :: apply_tax_lines currency lines' tax_lines'
  | _, _ => lines
  end.

Definition _apply_tax_data (tax_data : option TaxData) (st : State) : State :=
  match tax_data with
  | None => st
  | Some tax_data =>
      let checkout := the_checkout st in
      let currency := currency checkout in
      let lines := apply_tax_lines currency (lines st) (td_lines tax_data) in
      let checkout :=
        set_shipping_tax_rate checkout
          (normalize_tax_rate_for_db (td_shipping_tax_rate tax_data)) in
      let checkout :=
        set_shipping_price checkout
          (quantize_price
             (mkTaxedMoney (td_shipping_price_net_amount tax_data)
                           (td_shipping_price_gross_amount tax_data))
             currency) in
      let checkout :=
        set_subtotal checkout (_calculate_checkout_subtotal lines currency) in
      let checkout :=
        set_total checkout (_calculate_checkout_total checkout currency) in
      put_lines lines (put_checkout checkout st)
  end.

Definition plugin_line_calls : list Event :=
  [PluginCall "calculate_checkout_line_total";
   PluginCall "calculate_checkout_line_unit_price";
   PluginCall "get_checkout_line_tax_rate"]%string.

(** The body of the loop of [_apply_tax_data_from_plugins] for the line
    [line_info], with [done] the lines before it (already updated) and
    [rest] the lines after it: the manager sees the lines as they are. *)
Definition plugin_line_step (manager : PluginsManager)
  (checkout_info : CheckoutInfo) (done rest : list CheckoutLineInfo)
  (line_info : CheckoutLineInfo) (address : option Address)
  (discounts : list DiscountInfo) : CheckoutLineInfo :=
  let total_price :=
    calculate_checkout_line_total manager checkout_info
      (done ++ line_info :: rest) line_info address discounts in
  let line_info := with_line line_info (set_total_price (line line_info) total_price) in
  let unit_price :=
    calculate_checkout_line_unit_price manager checkout_info
      (done ++ line_info :: rest) line_info address discounts in
  let rate :=
    get_checkout_line_tax_rate manager checkout_info
      (done ++ line_info :: rest) line_info address discounts unit_price in
  with_line line_info (set_tax_rate (line line_info) rate).

Fixpoint plugin_lines_loop (manager : PluginsManager)
  (checkout_info : CheckoutInfo) (done todo : list CheckoutLineInfo)
  (address : option Address) (discounts : list DiscountInfo)
  : list CheckoutLineInfo * list Event :=
  match todo with
  | [] => (done, [])
  | line_info :: rest =>
      let line_info :=
        plugin_line_step manager checkout_info done rest line_info address
          discounts in
      let r :=
        plugin_lines_loop manager checkout_info (done ++ [line_info]) rest
          address discounts in
      (fst r, plugin_line_calls ++ snd r)
  end.

Definition _apply_tax_data_from_plugins (manager : PluginsManager)
  (address : option Address) (discounts : option (list DiscountInfo))
  (st : State) : State :=
  let discounts := discounts_or_empty discounts in
  let r :=
    plugin_lines_loop manager (checkout_info st) [] (lines st) address
      discounts in
  let st := emit (snd r) (put_lines (fst r) st) in
  let st :=
    put_checkout
      (set_shipping_price (the_checkout st)
         (calculate_checkout_shipping manager (checkout_info st) (lines st)
            address discounts)) st in
  let st :=
    put_checkout
      (set_shipping_tax_rate (the_checkout st)
         (get_checkout_shipping_tax_rate manager (checkout_info st) (lines st)
            address discounts (shipping_price (the_checkout st)))) st in
  let st :=
    put_checkout
      (set_subtotal (the_checkout st)
         (calculate_checkout_subtotal manager (checkout_info st) (lines st)
            address discounts)) st in
  let st :=
    put_checkout
      (set_total (the_checkout st)
         (calculate_checkout_total manager (checkout_info st) (lines st)
            address discounts)) st in
  emit [PluginCall "calculate_checkout_shipping";
        PluginCall "get_checkout_shipping_tax_rate";
        PluginCall "calculate_checkout_subtotal";
        PluginCall "calculate_checkout_total"]%string st.

(** The body of the loop of [_get_checkout_base_prices]; the base price
    functions are given the line alone. *)
Definition base_line_step (checkout_info : CheckoutInfo) (currency : string)
  (discounts : list DiscountInfo) (line_info : CheckoutLineInfo)
  : CheckoutLineInfo :=
  let total_price_default :=
    calculate_base_line_total_price base_calculations line_info
      (channel checkout_info) discounts in
  let line_info :=
    with_line line_info
      (set_total_price (line line_info)
         (quantize_price (mkTaxedMoney total_price_default total_price_default)
            currency)) in
  let unit_price_default :=
    calculate_base_line_unit_price base_calculations line_info
      (channel checkout_info) discounts in
  let unit_price :=
    quantize_price (mkTaxedMoney unit_price_default unit_price_default)
      currency in
  with_line line_info (set_tax_rate (line line_info) (calculate_tax_rate unit_price)).

Definition base_line_calls : list Event :=
  [BaseCall "calculate_base_line_total_price";
   BaseCall "calculate_base_line_unit_price"]%string.

Definition _get_checkout_base_prices (discounts : option (list DiscountInfo))
  (st : State) : State :=
  let discounts := discounts_or_empty discounts in
  let currency := currency (the_checkout st) in
  let st :=
    emit (flat_map (fun _ => base_line_calls) (lines st))
      (put_lines
         (map (base_line_step (checkout_info st) currency discounts) (lines st))
         st) in
  let shipping_price_default :=
    base_checkout_delivery_price base_calculations (checkout_info st)
      (lines st) in
  let st :=
    put_checkout
      (set_shipping_price (the_checkout st)
         (quantize_price
            (mkTaxedMoney shipping_price_default shipping_price_default)
            currency)) st in
  let st :=
    put_checkout
      (set_shipping_tax_rate (the_checkout st)
         (calculate_tax_rate (shipping_price (the_checkout st)))) st in
  let subtotal_default :=
    taxed_sum (map (fun line_info => total_price (line line_info)) (lines st))
      (zero_taxed_money currency) in
  let st := put_checkout (set_subtotal (the_checkout st) subtotal_default) st in
  let total_default :=
    base_checkout_total base_calculations (checkout_info st) discounts
      (lines st) in
  let st :=
    put_checkout
      (set_total (the_checkout st)
         (quantize_price (mkTaxedMoney total_default total_default) currency))
      st in
  emit [BaseCall "base_checkout_delivery_price";
        BaseCall "base_checkout_total"]%string st.

Definition _calculate_and_add_tax (tax_calculation_strategy : string)
  (manager : PluginsManager) (prices_entered_with_tax : bool)
  (address : option Address) (discounts : option (list DiscountInfo))
  (st : State) : State :=
  if String.eqb tax_calculation_strategy TAX_APP then
    let st := _apply_tax_data_from_plugins manager address discounts st in
    let tax_data := get_taxes_for_checkout manager (checkout_info st) (lines st) in
    _apply_tax_data tax_data (emit [PluginCall "get_taxes_for_checkout"] st)
  else if String.eqb tax_calculation_strategy FLAT_RATES then
    let r :=
      update_checkout_prices_with_flat_rates (checkout_info st) (lines st)
        prices_entered_with_tax address discounts in
    emit [FlatRatesCall]
      (mkState (fst r) (snd r) (now st) (db st) (log st))
  else st.

Definition fetch_checkout_prices_if_expired (manager : PluginsManager)
  (address : option Address) (discounts : option (list DiscountInfo))
  (force_update : bool) (st : State) : State :=
  let checkout := the_checkout st in
  if negb force_update && (now st <? price_expiration checkout)%Z then st
  else
    let tax_configuration := tax_configuration (checkout_info st) in
    let tax_calculation_strategy :=
      get_tax_calculation_strategy_for_checkout (checkout_info st) (lines st) in
    let prices_entered_with_tax := prices_entered_with_tax tax_configuration in
    let charge_taxes :=
      get_charge_taxes_for_checkout (checkout_info st) (lines st) in
    let should_charge_tax := charge_taxes && negb (tax_exemption checkout) in
    let st :=
      if prices_entered_with_tax then
        let st :=
          _calculate_and_add_tax tax_calculation_strategy manager
            prices_entered_with_tax address discounts st in
        if negb should_charge_tax then _remove_tax st else st
      else if should_charge_tax then
        _calculate_and_add_tax tax_calculation_strategy manager
          prices_entered_with_tax address discounts st
      else _get_checkout_base_prices discounts st in
    let st :=
      put_checkout
        (set_price_expiration (the_checkout st)
           (now st + CHECKOUT_PRICES_TTL)%Z) st in
    bulk_update (save st).

(** *** The flat-rate engine *)

(** The lookups of the flat-rate engine in the configured tax classes: the
    price and the rate of a line and of shipping. *)
Variable flat_rate_line_total :
  CheckoutInfo -> CheckoutLineInfo -> bool -> list DiscountInfo -> TaxedMoney.
Variable flat_rate_of_line : CheckoutInfo -> CheckoutLineInfo -> Decimal.
Variable flat_rate_shipping_price :
  CheckoutInfo -> list CheckoutLineInfo -> bool -> TaxedMoney.
Variable flat_rate_of_shipping :
  CheckoutInfo -> list CheckoutLineInfo -> Decimal.

(** Modelled from the spec: [update_checkout_prices_with_flat_rates] of
    saleor/tax/calculations/checkout.py is not among the sources. By the
    spec it looks a rate up for every line and for shipping and produces
    net and gross directly from the configured rates, with no call to the
    plugin manager; every value is quantized before it is stored; and
    after it the total is the quantized sum of subtotal and shipping
    price, the subtotal being the sum of the line totals. *)
Definition flat_rates_by_spec (checkout_info : CheckoutInfo)
  (lines : list CheckoutLineInfo) (prices_entered_with_tax : bool)
  (address : option Address) (discounts : option (list DiscountInfo))
  : CheckoutInfo * list CheckoutLineInfo :=
  let discounts := discounts_or_empty discounts in
  let checkout := checkout checkout_info in
  let currency := currency checkout in
  let lines :=
    map (fun line_info =>
           let l := line line_info in
           let l :=
             set_total_price l
               (quantize_price
                  (flat_rate_line_total checkout_info line_info
                     prices_entered_with_tax discounts)
                  currency) in
           with_line line_info
             (set_tax_rate l (flat_rate_of_line checkout_info line_info)))
        lines in
  let checkout :=
    set_shipping_price checkout
      (quantize_price
         (flat_rate_shipping_price checkout_info lines prices_entered_with_tax)
         currency) in
  let checkout :=
    set_shipping_tax_rate checkout (flat_rate_of_shipping checkout_info lines) in
  let checkout :=
    set_subtotal checkout
      (taxed_sum (map (fun line_info => total_price (line line_info)) lines)
         (zero_taxed_money currency)) in
  let checkout :=
    set_total checkout (_calculate_checkout_total checkout currency) in
  (with_checkout checkout_info checkout, lines).

(** *** Read operations *)

Definition checkout_shipping_price (manager : PluginsManager)
  (address : option Address) (discounts : option (list DiscountInfo))
  (st : State) : TaxedMoney * State :=
  let currency := currency (the_checkout st) in
  let st := fetch_checkout_prices_if_expired manager address discounts false st in
  (quantize_price (shipping_price (the_checkout st)) currency, st).

Definition checkout_shipping_tax_rate (manager : PluginsManager)
  (address : option Address) (discounts : option (list DiscountInfo))
  (st : State) : Decimal * State :=
  let st := fetch_checkout_prices_if_expired manager address discounts false st in
  (shipping_tax_rate (the_checkout st), st).

Definition checkout_subtotal (manager : PluginsManager)
  (address : option Address) (discounts : option (list DiscountInfo))
  (st : State) : TaxedMoney * State :=
  let currency := currency (the_checkout st) in
  let st := fetch_checkout_prices_if_expired manager address discounts false st in
  (quantize_price (subtotal (the_checkout st)) currency, st).

Definition checkout_total (manager : PluginsManager)
  (address : option Address) (discounts : option (list DiscountInfo))
  (st : State) : TaxedMoney * State :=
  let currency := currency (the_checkout st) in
  let st := fetch_checkout_prices_if_expired manager address discounts false st in
  (quantize_price (total (the_checkout st)) currency, st).

Definition calculate_checkout_total_with_gift_cards (manager : PluginsManager)
  (address : option Address) (discounts : option (list DiscountInfo))
  (st : State) : TaxedMoney * State :=
  let r := checkout_total manager address discounts st in
  let st := snd r in
  let total :=
    taxed_sub_money (fst r) (get_total_gift_cards_balance (the_checkout st)) in
  (taxed_max total (zero_taxed_money (currency (the_checkout st))), st).

(** [next(...)] over the lines with the primary key of [checkout_line_info];
    it raises StopIteration when there is none. *)
Definition _find_checkout_line_info (lines : list CheckoutLineInfo)
  (checkout_line_info : CheckoutLineInfo) : Result CheckoutLineInfo :=
  match
    find (fun line_info => (pk (line line_info) =? pk (line checkout_line_info))%Z)
      lines
  with
  | Some line_info => inr line_info
  | None => inl StopIteration
  end.

Definition checkout_line_total (manager : PluginsManager)
  (checkout_line_info : CheckoutLineInfo) (discounts : list DiscountInfo)
  (st : State) : Result TaxedMoney * State :=
  let currency := currency (the_checkout st) in
  let address :=
    or_address (shipping_address (checkout_info st))
      (billing_address (checkout_info st)) in
  let st :=
    fetch_checkout_prices_if_expired manager address (Some discounts) false st in
  match _find_checkout_line_info (lines st) checkout_line_info with
  | inl e => (inl e, st)
  | inr line_info =>
      let checkout_line := line line_info in
      (inr (quantize_price (total_price checkout_line) currency), st)
  end.

Definition checkout_line_unit_price (manager : PluginsManager)
  (checkout_line_info : CheckoutLineInfo) (discounts : list DiscountInfo)
  (st : State) : Result TaxedMoney * State :=
  let currency := currency (the_checkout st) in
  let address :=
    or_address (shipping_address (checkout_info st))
      (billing_address (checkout_info st)) in
  let st :=
    fetch_checkout_prices_if_expired manager address (Some discounts) false st in
  match _find_checkout_line_info (lines st) checkout_line_info with
  | inl e => (inl e, st)
  | inr line_info =>
      let checkout_line := line line_info in
      match taxed_div (total_price checkout_line) (quantity checkout_line) with
      | inl e => (inl e, st)
      | inr unit_price => (inr (quantize_price unit_price currency), st)
      end
  end.

Definition checkout_line_tax_rate (manager : PluginsManager)
  (checkout_line_info : CheckoutLineInfo) (discounts : list DiscountInfo)
  (st : State) : Result Decimal * State :=
  let address :=
    or_address (shipping_address (checkout_info st))
      (billing_address (checkout_info st)) in
  let st :=
    fetch_checkout_prices_if_expired manager address (Some discounts) false st in
  match _find_checkout_line_info (lines st) checkout_line_info with
  | inl e => (inl e, st)
  | inr checkout_line_info => (inr (tax_rate (line checkout_line_info)), st)
  end.


(** ** Stated properties *)

(** Every gross amount of the checkout equals its net amount and the
    shipping tax rate is zero. *)
Definition gross_is_net (c : Checkout) : Prop :=
  total_gross_amount c = total_net_amount c /\
  subtotal_gross_amount c = subtotal_net_amount c /\
  shipping_price_gross_amount c = shipping_price_net_amount c /\
  shipping_tax_rate c = 0%Qc.

(** The gross total of the line equals its net total and its tax rate is
    zero. *)
Definition line_gross_is_net (line_info : CheckoutLineInfo) : Prop :=
  total_price_gross_amount (line line_info)
  = total_price_net_amount (line line_info) /\
  tax_rate (line line_info) = 0%Qc.

(** The line [after] is the line [before] with its total price and tax rate
    taken from the entry [entry] of the tax data. *)
Definition line_set_from (currency : string) (before : CheckoutLineInfo)
  (entry : TaxLineData) (after : CheckoutLineInfo) : Prop :=
  total_price (line after)
  = quantize_price
      (mkTaxedMoney (tl_total_net_amount entry) (tl_total_gross_amount entry))
      currency /\
  tax_rate (line after) = normalize_tax_rate_for_db (tl_tax_rate entry) /\
  pk (line after) = pk (line before) /\
  quantity (line after) = quantity (line before) /\
  variant after = variant before.

(** The subtotal is the quantized sum of the line totals and the total the
    quantized sum of subtotal and shipping price. *)
Definition totals_recomputed (currency : string) (st : State) : Prop :=
  subtotal (the_checkout st)
  = quantize_price
      (taxed_sum (map (fun line_info => total_price (line line_info)) (lines st))
         (zero_taxed_money currency))
      currency /\
  total (the_checkout st)
  = quantize_price
      (taxed_add (subtotal (the_checkout st)) (shipping_price (the_checkout st)))
      currency.

(** [checkout.total] is the quantized sum of subtotal and shipping price. *)
Definition total_identity (currency : string) (c : Checkout) : Prop :=
  total c = _calculate_checkout_total c currency.

(** The money values a state stores: total, subtotal and shipping price of
    the checkout and the total price of every line. *)
Definition stored_money (st : State) : list TaxedMoney :=
  total (the_checkout st) :: subtotal (the_checkout st)
  :: shipping_price (the_checkout st)
  :: map (fun line_info => total_price (line line_info)) (lines st).

(** Every money value the manager returns for storing satisfies [P]. *)
Definition manager_returns (P : TaxedMoney -> Prop) (manager : PluginsManager)
  : Prop :=
  forall (ci : CheckoutInfo) (ls : list CheckoutLineInfo)
         (li : CheckoutLineInfo) (address : option Address)
         (discounts : list DiscountInfo),
    P (calculate_checkout_line_total manager ci ls li address discounts) /\
    P (calculate_checkout_shipping manager ci ls address discounts) /\
    P (calculate_checkout_subtotal manager ci ls address discounts) /\
    P (calculate_checkout_total manager ci ls address discounts).

(** The state [after] is the state [before] after some calls: the clock and
    the database are those of [before] and the record of calls has grown by
    [calls]. *)
Definition runs_from (before : State) (calls : list Event) (after : State)
  : Prop :=
  now after = now before /\
  db after = db before /\
  log after = log before ++ calls.

(** The state when the clock reads [t]. *)
Definition at_time (t : datetime) (st : State) : State :=
  mkState (checkout_info st) (lines st) t (db st) (log st).

(** A recomputation runs: it is forced or the prices have expired. *)
Definition recomputes (force_update : bool) (st : State) : Prop :=
  force_update = true \/ (price_expiration (the_checkout st) <= now st)%Z.

(** The two writes at the end of a recomputation. *)
Definition persisting_calls (st : State) : list Event :=
  [DbSave save_update_fields;
   DbBulkUpdate (map pk (map line (lines st))) bulk_update_fields].

(** The row of the checkout holds every saved field of the checkout. *)
Definition row_holds (row c : Checkout) : Prop :=
  currency row = currency c /\
  price_expiration row = price_expiration c /\
  total row = total c /\
  subtotal row = subtotal c /\
  shipping_price row = shipping_price c /\
  shipping_tax_rate row = shipping_tax_rate c /\
  voucher_code row = voucher_code c /\
  translated_discount_name row = translated_discount_name c /\
  discount_amount row = discount_amount c /\
  discount_name row = discount_name c.

(** Every stored gross amount equals its net amount. *)
Definition money_gross_is_net (st : State) : Prop :=
  Forall (fun v => gross v = net v) (stored_money st).

(** What identifies a line apart from its prices. *)
Definition line_identity (line_info : CheckoutLineInfo) : Z * Z * Z :=
  (pk (line line_info), quantity (line line_info), variant line_info).

(** The fields of the checkout that are not prices or the expiration. *)
Definition checkout_frame (c : Checkout)
  : string * bool * option string * option string * Decimal * option string :=
  (currency c, tax_exemption c, voucher_code c, translated_discount_name c,
   discount_amount c, discount_name c).

(** What the checkout info holds beside the checkout. *)
Definition info_frame (ci : CheckoutInfo)
  : Channel * option Address * option Address * TaxConfiguration :=
  (channel ci, shipping_address ci, billing_address ci, tax_configuration ci).

(** The calls of the per-call plugin path on the checkout as a whole. *)
Definition plugin_checkout_calls : list Event :=
  [PluginCall "calculate_checkout_shipping";
   PluginCall "get_checkout_shipping_tax_rate";
   PluginCall "calculate_checkout_subtotal";
   PluginCall "calculate_checkout_total"]%string.

(** The calls of the tax-free path on the checkout as a whole. *)
Definition base_checkout_calls : list Event :=
  [BaseCall "base_checkout_delivery_price";
   BaseCall "base_checkout_total"]%string.

(** ** Properties of quantization *)

Lemma round_half_up_inject_Z (n : Z) : round_half_up (inject_Z n) = n.
Proof.
  unfold round_half_up.
  rewrite Qfloor_Z.
  assert (H : (inject_Z n - inject_Z n == 0)%Q) by ring.
  rewrite H. reflexivity.
Qed.

Lemma round_half_up_Qeq (a b : Q) :
  (a == b)%Q -> round_half_up a = round_half_up b.
Proof.
  intros H. unfold round_half_up.
  rewrite (Qfloor_comp a b H).
  assert (E : (a - inject_Z (Qfloor b) == b - inject_Z (Qfloor b))%Q)
    by (rewrite H; reflexivity).
  rewrite E. reflexivity.
Qed.

Lemma scaled_dec (n : Z) (places : nat) :
  (this (dec n places) * inject_Z (Zpos (pow10 places)) == inject_Z n)%Q.
Proof.
  unfold dec.
  change (this (Q2Qc (n # pow10 places))) with (Qred (n # pow10 places)).
  rewrite Qred_correct.
  unfold Qeq, Qmult, inject_Z. simpl.
  rewrite Pos.mul_1_r. ring.
Qed.

Lemma quantize_decimal_dec (n : Z) (places : nat) :
  quantize_decimal places (dec n places) = dec n places.
Proof.
  unfold quantize_decimal.
  rewrite (round_half_up_Qeq _ _ (scaled_dec n places)).
  rewrite round_half_up_inject_Z. reflexivity.
Qed.

Lemma is_quantized_iff (places : nat) (x : Decimal) :
  is_quantized places x <-> exists n : Z, x = dec n places.
Proof.
  split.
  - intros H. eexists. symmetry. exact H.
  - intros [n ->]. apply quantize_decimal_dec.
Qed.

Lemma quantize_decimal_is_quantized (places : nat) (x : Decimal) :
  is_quantized places (quantize_decimal places x).
Proof.
  apply is_quantized_iff. eexists. reflexivity.
Qed.

Lemma dec_add (n m : Z) (places : nat) :
  (dec n places + dec m places)%Qc = dec (n + m) places.
Proof.
  apply Qc_is_canon. unfold dec, Qcplus.
  cbn [this Q2Qc].
  rewrite !Qred_correct.
  unfold Qeq, Qplus. simpl.
  rewrite Pos2Z.inj_mul. ring.
Qed.

Lemma dec_zero (places : nat) : dec 0 places = 0%Qc.
Proof.
  apply Qc_is_canon. unfold dec. cbn [this Q2Qc].
  rewrite Qred_correct. reflexivity.
Qed.

Lemma is_quantized_add (places : nat) (x y : Decimal) :
  is_quantized places x -> is_quantized places y ->
  is_quantized places (x + y)%Qc.
Proof.
  rewrite !is_quantized_iff.
  intros [n ->] [m ->]. exists (n + m)%Z. apply dec_add.
Qed.

Lemma is_quantized_zero (places : nat) : is_quantized places 0%Qc.
Proof.
  apply is_quantized_iff. exists 0%Z.
  apply Qc_is_canon. unfold dec. cbn [this Q2Qc Q2Qc].
  rewrite Qred_correct. reflexivity.
Qed.

Lemma taxed_add_is_quantized (places : nat) (a b : TaxedMoney) :
  taxed_is_quantized places a -> taxed_is_quantized places b ->
  taxed_is_quantized places (taxed_add a b).
Proof.
  intros [Ha1 Ha2] [Hb1 Hb2].
  split; simpl; apply is_quantized_add; assumption.
Qed.

Lemma taxed_sum_is_quantized (places : nat) (values : list TaxedMoney) :
  forall start : TaxedMoney,
    taxed_is_quantized places start ->
    Forall (taxed_is_quantized places) values ->
    taxed_is_quantized places (taxed_sum values start).
Proof.
  unfold taxed_sum.
  induction values as [|v values IH]; intros start Hs Hv; simpl.
  - exact Hs.
  - inversion Hv; subst.
    apply IH; [apply taxed_add_is_quantized|]; assumption.
Qed.

Lemma zero_taxed_money_is_quantized (places : nat) (currency : string) :
  taxed_is_quantized places (zero_taxed_money currency).
Proof.
  split; apply is_quantized_zero.
Qed.

Lemma quantize_price_is_quantized (price : TaxedMoney) (currency : string) :
  taxed_is_quantized (get_currency_precision currency)
    (quantize_price price currency).
Proof.
  split; apply quantize_decimal_is_quantized.
Qed.

(** ** State bookkeeping *)

Lemma taxed_money_eta (v : TaxedMoney) : mkTaxedMoney (net v) (gross v) = v.
Proof. destruct v. reflexivity. Qed.

Lemma total_set_total (c : Checkout) (v : TaxedMoney) :
  total (set_total c v) = v.
Proof. apply taxed_money_eta. Qed.

Lemma subtotal_set_subtotal (c : Checkout) (v : TaxedMoney) :
  subtotal (set_subtotal c v) = v.
Proof. apply taxed_money_eta. Qed.

Lemma shipping_price_set_shipping_price (c : Checkout) (v : TaxedMoney) :
  shipping_price (set_shipping_price c v) = v.
Proof. apply taxed_money_eta. Qed.

Lemma subtotal_set_total (c : Checkout) (v : TaxedMoney) :
  subtotal (set_total c v) = subtotal c.
Proof. reflexivity. Qed.

Lemma shipping_price_set_total (c : Checkout) (v : TaxedMoney) :
  shipping_price (set_total c v) = shipping_price c.
Proof. reflexivity. Qed.

Lemma shipping_price_set_subtotal (c : Checkout) (v : TaxedMoney) :
  shipping_price (set_subtotal c v) = shipping_price c.
Proof. reflexivity. Qed.

Lemma shipping_price_set_shipping_tax_rate (c : Checkout) (r : Decimal) :
  shipping_price (set_shipping_tax_rate c r) = shipping_price c.
Proof. reflexivity. Qed.

Lemma the_checkout_put_checkout (c : Checkout) (st : State) :
  the_checkout (put_checkout c st) = c.
Proof. reflexivity. Qed.

Lemma persisted_objects (st : State) :
  checkout_info (bulk_update (save st)) = checkout_info st /\
  lines (bulk_update (save st)) = lines st.
Proof. split; reflexivity. Qed.

Lemma fetch_guard_false (force_update : bool) (st : State) :
  force_update = true \/ (price_expiration (the_checkout st) <= now st)%Z ->
  negb force_update && (now st <? price_expiration (the_checkout st))%Z = false.
Proof.
  intros [-> | H].
  - reflexivity.
  - apply andb_false_iff. right. apply Z.ltb_ge. exact H.
Qed.

Lemma apply_tax_data_now (tax_data : option TaxData) (st : State) :
  now (_apply_tax_data tax_data st) = now st.
Proof. destruct tax_data; reflexivity. Qed.

Lemma calculate_and_add_tax_now (strategy : string) (manager : PluginsManager)
  (with_tax : bool) (address : option Address)
  (discounts : option (list DiscountInfo)) (st : State) :
  now (_calculate_and_add_tax strategy manager with_tax address discounts st)
  = now st.
Proof.
  unfold _calculate_and_add_tax.
  destruct (String.eqb strategy TAX_APP).
  - rewrite apply_tax_data_now. reflexivity.
  - destruct (String.eqb strategy FLAT_RATES); reflexivity.
Qed.

(** ** The freshness short-circuit *)

(** C1: while [price_expiration] lies strictly in the future, a call with
    [force_update = false] hands back the checkout info and the lines it was
    given, records no call to the plugin manager, to the base price
    functions or to the flat-rate engine, and writes nothing to the
    database. *)
Theorem fetch_fresh_returns_inputs (manager : PluginsManager)
  (address : option Address) (discounts : option (list DiscountInfo))
  (st : State) :
  (now st < price_expiration (the_checkout st))%Z ->
  let st' :=
    fetch_checkout_prices_if_expired manager address discounts false st in
  checkout_info st' = checkout_info st /\
  lines st' = lines st /\
  log st' = log st /\
  db st' = db st.
Proof.
  intros Hfresh st'.
  assert (E : st' = st).
  { unfold st', fetch_checkout_prices_if_expired.
    apply Z.ltb_lt in Hfresh. rewrite Hfresh. reflexivity. }
  rewrite E. repeat split.
Qed.

(** ** The strategies *)

(** C4: in the TAX_APP strategy, when the consolidated call of the plugin
    manager returns None, applying it changes nothing: the checkout (its
    shipping price, shipping tax rate, subtotal and total) and every line
    (its total price and tax rate) are as the per-call plugin functions
    left them. *)
Theorem absent_tax_data_keeps_plugin_values (manager : PluginsManager)
  (with_tax : bool) (address : option Address)
  (discounts : option (list DiscountInfo)) (st : State) :
  let plugged := _apply_tax_data_from_plugins manager address discounts st in
  get_taxes_for_checkout manager (checkout_info plugged) (lines plugged)
  = None ->
  let st' :=
    _calculate_and_add_tax TAX_APP manager with_tax address discounts st in
  _apply_tax_data None plugged = plugged /\
  checkout_info st' = checkout_info plugged /\
  lines st' = lines plugged.
Proof.
  intros plugged Habsent st'.
  split; [reflexivity|].
  unfold st', _calculate_and_add_tax.
  change (String.eqb TAX_APP TAX_APP) with true. cbv iota.
  fold plugged.
  change (checkout_info (emit [PluginCall "get_taxes_for_checkout"] plugged))
    with (checkout_info plugged) in *.
  rewrite Habsent.
  split; reflexivity.
Qed.

(** C6, as the code has it: a strategy that is neither TAX_APP nor
    FLAT_RATES raises nothing; the tax computation is skipped, no
    collaborator is called and the checkout and its lines are left as they
    were. *)
Theorem unknown_strategy_is_skipped (strategy : string)
  (manager : PluginsManager) (with_tax : bool) (address : option Address)
  (discounts : option (list DiscountInfo)) (st : State) :
  strategy <> TAX_APP ->
  strategy <> FLAT_RATES ->
  _calculate_and_add_tax strategy manager with_tax address discounts st = st.
Proof.
  intros Happ Hflat.
  unfold _calculate_and_add_tax.
  apply String.eqb_neq in Happ. apply String.eqb_neq in Hflat.
  rewrite Happ, Hflat. reflexivity.
Qed.

(** ** Applying tax data *)

Lemma apply_tax_lines_length (currency : string)
  (ls : list CheckoutLineInfo) :
  forall entries : list TaxLineData,
    List.length (apply_tax_lines currency ls entries) = List.length ls.
Proof.
  induction ls as [|line_info ls IH]; intros [|entry entries]; simpl;
    try reflexivity.
  rewrite IH. reflexivity.
Qed.

Lemma apply_tax_lines_overwrites (currency : string)
  (ls : list CheckoutLineInfo) :
  forall (entries : list TaxLineData) (i : nat) (line_info : CheckoutLineInfo)
         (entry : TaxLineData),
    nth_error ls i = Some line_info ->
    nth_error entries i = Some entry ->
    exists after,
      nth_error (apply_tax_lines currency ls entries) i = Some after /\
      line_set_from currency line_info entry after.
Proof.
  induction ls as [|l ls IH]; intros entries i line_info entry Hl He.
  - destruct i; discriminate.
  - destruct entries as [|e entries]; [destruct i; discriminate|].
    destruct i as [|i]; simpl in *.
    + injection Hl as ->. injection He as ->.
      eexists. split; [reflexivity|].
      repeat split.
    + apply IH; assumption.
Qed.

Lemma apply_tax_lines_keeps (currency : string) (ls : list CheckoutLineInfo) :
  forall (entries : list TaxLineData) (i : nat),
    (List.length entries <= i)%nat ->
    nth_error (apply_tax_lines currency ls entries) i = nth_error ls i.
Proof.
  induction ls as [|l ls IH]; intros entries i Hi.
  - destruct entries; reflexivity.
  - destruct entries as [|e entries]; [reflexivity|].
    destruct i as [|i]; simpl in *; [lia|].
    apply IH. lia.
Qed.

Lemma apply_tax_data_lines (tax_data : TaxData) (st : State) :
  lines (_apply_tax_data (Some tax_data) st)
  = apply_tax_lines (currency (the_checkout st)) (lines st) (td_lines tax_data).
Proof. reflexivity. Qed.

Lemma apply_tax_data_totals (tax_data : TaxData) (st : State) :
  totals_recomputed (currency (the_checkout st))
    (_apply_tax_data (Some tax_data) st).
Proof. split; reflexivity. Qed.

(** C5: tax data with as many entries as the checkout has lines sets the
    total price (net and gross, quantized) and the tax rate of the i-th
    line from the i-th entry, in order; the subtotal is then the sum of all
    line totals and the total is subtotal plus shipping price. *)
Theorem tax_data_applied_positionally (tax_data : TaxData) (st : State) :
  List.length (td_lines tax_data) = List.length (lines st) ->
  let currency := currency (the_checkout st) in
  let st' := _apply_tax_data (Some tax_data) st in
  List.length (lines st') = List.length (lines st) /\
  (forall (i : nat) (line_info : CheckoutLineInfo),
      nth_error (lines st) i = Some line_info ->
      exists entry after,
        nth_error (td_lines tax_data) i = Some entry /\
        nth_error (lines st') i = Some after /\
        line_set_from currency line_info entry after) /\
  totals_recomputed currency st'.
Proof.
  intros Hlen cur st'.
  split; [|split].
  - unfold st'. rewrite apply_tax_data_lines. apply apply_tax_lines_length.
  - intros i line_info Hl.
    assert (Hi : (i < List.length (td_lines tax_data))%nat).
    { rewrite Hlen. apply nth_error_Some. rewrite Hl. discriminate. }
    destruct (nth_error (td_lines tax_data) i) as [entry|] eqn:He.
    + destruct (apply_tax_lines_overwrites cur (lines st) _ _ _ _ Hl He)
        as [after [Ha Hset]].
      exists entry, after. repeat split; try apply Hset. exact Ha.
    + apply nth_error_None in He. lia.
  - apply apply_tax_data_totals.
Qed.

(** C9: when the tax data has M entries and the checkout N lines with M
    different from N, the call returns normally; the first min(M, N) lines
    are overwritten from their entries, every other line is left as it was
    (entries past the last line are dropped), and the subtotal is still the
    sum over all N lines, with the total recomputed from it. *)
Theorem tax_data_length_mismatch (tax_data : TaxData) (st : State) :
  List.length (td_lines tax_data) <> List.length (lines st) ->
  let currency := currency (the_checkout st) in
  let overwritten := Nat.min (List.length (td_lines tax_data)) (List.length (lines st)) in
  let st' := _apply_tax_data (Some tax_data) st in
  List.length (lines st') = List.length (lines st) /\
  (forall (i : nat),
      (i < overwritten)%nat ->
      exists line_info entry after,
        nth_error (lines st) i = Some line_info /\
        nth_error (td_lines tax_data) i = Some entry /\
        nth_error (lines st') i = Some after /\
        line_set_from currency line_info entry after) /\
  (forall (i : nat),
      (overwritten <= i)%nat ->
      nth_error (lines st') i = nth_error (lines st) i) /\
  totals_recomputed currency st'.
Proof.
  intros _ cur overwritten st'.
  assert (Hlen : List.length (lines st') = List.length (lines st)).
  { unfold st'. rewrite apply_tax_data_lines. apply apply_tax_lines_length. }
  split; [exact Hlen|]. split; [|split].
  - intros i Hi.
    destruct (nth_error (lines st) i) as [line_info|] eqn:Hl;
      [|apply nth_error_None in Hl; unfold overwritten in Hi; lia].
    destruct (nth_error (td_lines tax_data) i) as [entry|] eqn:He;
      [|apply nth_error_None in He; unfold overwritten in Hi; lia].
    destruct (apply_tax_lines_overwrites cur (lines st) _ _ _ _ Hl He)
      as [after [Ha Hset]].
    exists line_info, entry, after. repeat split; try apply Hset. exact Ha.
  - intros i Hi.
    destruct (Nat.le_gt_cases (List.length (td_lines tax_data)) i) as [Hm|Hm].
    + unfold st'. rewrite apply_tax_data_lines.
      apply apply_tax_lines_keeps. exact Hm.
    + assert (Hn : (List.length (lines st) <= i)%nat)
        by (unfold overwritten in Hi; lia).
      rewrite (proj2 (nth_error_None (lines st) i) Hn).
      apply nth_error_None. rewrite Hlen. exact Hn.
  - apply apply_tax_data_totals.
Qed.

(** ** Removing the tax *)

Lemma remove_tax_checkout (st : State) :
  gross_is_net (the_checkout (_remove_tax st)).
Proof.
  unfold gross_is_net, _remove_tax. cbn.
  repeat split. apply dec_zero.
Qed.

Lemma remove_tax_lines (st : State) :
  Forall line_gross_is_net (lines (_remove_tax st)).
Proof.
  unfold _remove_tax. cbn [lines put_lines].
  apply Forall_map, Forall_forall.
  intros line_info _. split; cbn.
  - reflexivity.
  - apply dec_zero.
Qed.

Lemma gross_is_net_set_price_expiration (c : Checkout) (t : datetime) :
  gross_is_net c -> gross_is_net (set_price_expiration c t).
Proof. intros H. exact H. Qed.


(** ** Quantization of stored and returned money *)

Lemma base_lines_are_quantized (ci : CheckoutInfo) (currency : string)
  (discounts : list DiscountInfo) (ls : list CheckoutLineInfo) :
  Forall (taxed_is_quantized (get_currency_precision currency))
    (map (fun line_info => total_price (line line_info))
       (map (base_line_step ci currency discounts) ls)).
Proof.
  rewrite map_map. apply Forall_map, Forall_forall.
  intros line_info _.
  apply (quantize_price_is_quantized _ currency).
Qed.

Lemma base_prices_are_quantized (discounts : option (list DiscountInfo))
  (st : State) :
  Forall (taxed_is_quantized (get_currency_precision (currency (the_checkout st))))
    (stored_money (_get_checkout_base_prices discounts st)).
Proof.
  unfold stored_money.
  repeat apply Forall_cons.
  - apply (quantize_price_is_quantized _ (currency (the_checkout st))).
  - apply taxed_sum_is_quantized.
    + apply zero_taxed_money_is_quantized.
    + apply base_lines_are_quantized.
  - apply (quantize_price_is_quantized _ (currency (the_checkout st))).
  - apply base_lines_are_quantized.
Qed.

Lemma base_subtotal_is_sum (discounts : option (list DiscountInfo))
  (st : State) :
  let base := _get_checkout_base_prices discounts st in
  subtotal (the_checkout base)
  = taxed_sum (map (fun line_info => total_price (line line_info)) (lines base))
      (zero_taxed_money (currency (the_checkout st))).
Proof.
  intros base. unfold base, _get_checkout_base_prices.
  cbn [the_checkout put_checkout with_checkout checkout checkout_info emit
       lines put_lines].
  rewrite subtotal_set_total, subtotal_set_subtotal. reflexivity.
Qed.

Lemma apply_tax_lines_are_quantized (currency : string)
  (ls : list CheckoutLineInfo) :
  forall entries : list TaxLineData,
    (List.length ls <= List.length entries)%nat ->
    Forall (taxed_is_quantized (get_currency_precision currency))
      (map (fun line_info => total_price (line line_info))
         (apply_tax_lines currency ls entries)).
Proof.
  induction ls as [|l ls IH]; intros [|e entries] Hlen; simpl in *;
    try apply Forall_nil; try lia.
  apply Forall_cons.
  - apply (quantize_price_is_quantized _ currency).
  - apply IH. lia.
Qed.

Lemma tax_data_prices_are_quantized (tax_data : TaxData) (st : State) :
  (List.length (lines st) <= List.length (td_lines tax_data))%nat ->
  Forall (taxed_is_quantized (get_currency_precision (currency (the_checkout st))))
    (stored_money (_apply_tax_data (Some tax_data) st)).
Proof.
  intros Hlen. unfold stored_money.
  repeat apply Forall_cons;
    try apply (quantize_price_is_quantized _ (currency (the_checkout st))).
  rewrite apply_tax_data_lines.
  apply apply_tax_lines_are_quantized. exact Hlen.
Qed.

Lemma plugin_line_step_total (manager : PluginsManager) (ci : CheckoutInfo)
  (done rest : list CheckoutLineInfo) (line_info : CheckoutLineInfo)
  (address : option Address) (discounts : list DiscountInfo) :
  total_price
    (line (plugin_line_step manager ci done rest line_info address discounts))
  = calculate_checkout_line_total manager ci (done ++ line_info :: rest)
      line_info address discounts.
Proof.
  unfold plugin_line_step. cbn. apply taxed_money_eta.
Qed.

Lemma plugin_lines_loop_stores (P : TaxedMoney -> Prop)
  (manager : PluginsManager) (ci : CheckoutInfo) (address : option Address)
  (discounts : list DiscountInfo) :
  manager_returns P manager ->
  forall todo done : list CheckoutLineInfo,
    Forall P (map (fun line_info => total_price (line line_info)) done) ->
    Forall P
      (map (fun line_info => total_price (line line_info))
         (fst (plugin_lines_loop manager ci done todo address discounts))).
Proof.
  intros Hm.
  induction todo as [|line_info todo IH]; intros done Hdone; simpl.
  - exact Hdone.
  - apply IH. rewrite map_app. apply Forall_app. split; [exact Hdone|].
    apply Forall_cons; [|apply Forall_nil].
    rewrite plugin_line_step_total. apply Hm.
Qed.

Lemma plugin_prices_are_stored (P : TaxedMoney -> Prop)
  (manager : PluginsManager) (address : option Address)
  (discounts : option (list DiscountInfo)) (st : State) :
  manager_returns P manager ->
  Forall P
    (stored_money (_apply_tax_data_from_plugins manager address discounts st)).
Proof.
  intros Hm.
  pose (l0 := mkCheckoutLineInfo (mkCheckoutLine 0 0 0%Qc 0%Qc 0%Qc) 0%Z).
  assert (Hship : forall ci ls a d,
             P (calculate_checkout_shipping manager ci ls a d))
    by (intros; apply (Hm ci ls l0 a d)).
  assert (Hsub : forall ci ls a d,
             P (calculate_checkout_subtotal manager ci ls a d))
    by (intros; apply (Hm ci ls l0 a d)).
  assert (Htot : forall ci ls a d,
             P (calculate_checkout_total manager ci ls a d))
    by (intros; apply (Hm ci ls l0 a d)).
  unfold stored_money, _apply_tax_data_from_plugins.
  repeat apply Forall_cons.
  - cbn [the_checkout put_checkout with_checkout checkout checkout_info emit].
    rewrite total_set_total. apply Htot.
  - cbn [the_checkout put_checkout with_checkout checkout checkout_info emit].
    rewrite subtotal_set_total, subtotal_set_subtotal. apply Hsub.
  - cbn [the_checkout put_checkout with_checkout checkout checkout_info emit].
    rewrite shipping_price_set_total, shipping_price_set_subtotal,
      shipping_price_set_shipping_tax_rate, shipping_price_set_shipping_price.
    apply Hship.
  - apply (plugin_lines_loop_stores P manager); [exact Hm|apply Forall_nil].
Qed.

(** C7, as the code has it: the read operations [checkout_shipping_price],
    [checkout_subtotal], [checkout_total], [checkout_line_total] and
    [checkout_line_unit_price] quantize what they return, net and gross
    independently, to the precision of the checkout's currency. The
    tax-free path stores quantized line totals, shipping price and total;
    its subtotal is stored as the plain sum of the quantized line totals,
    which is at that precision too. Tax data that has an entry for every
    line stores quantized values. The plugin per-call path stores what the
    plugin manager returns, as returned: whatever holds of every value the
    manager returns holds of the stored values, and nothing is quantized
    there by this code. *)
Theorem money_is_quantized_where_the_code_quantizes
  (manager : PluginsManager) (address : option Address)
  (discounts : option (list DiscountInfo))
  (checkout_line_info : CheckoutLineInfo) (line_discounts : list DiscountInfo)
  (tax_data : TaxData) (st : State) :
  let currency := currency (the_checkout st) in
  let quantized := taxed_is_quantized (get_currency_precision currency) in
  let base := _get_checkout_base_prices discounts st in
  (quantized (fst (checkout_shipping_price manager address discounts st)) /\
   quantized (fst (checkout_subtotal manager address discounts st)) /\
   quantized (fst (checkout_total manager address discounts st)) /\
   (forall v : TaxedMoney,
       fst (checkout_line_total manager checkout_line_info line_discounts st)
       = inr v -> quantized v) /\
   (forall v : TaxedMoney,
       fst (checkout_line_unit_price manager checkout_line_info line_discounts st)
       = inr v -> quantized v)) /\
  (Forall quantized (stored_money base) /\
   subtotal (the_checkout base)
   = taxed_sum (map (fun line_info => total_price (line line_info)) (lines base))
       (zero_taxed_money currency)) /\
  ((List.length (lines st) <= List.length (td_lines tax_data))%nat ->
   Forall quantized (stored_money (_apply_tax_data (Some tax_data) st))) /\
  (forall P : TaxedMoney -> Prop,
      manager_returns P manager ->
      Forall P
        (stored_money
           (_apply_tax_data_from_plugins manager address discounts st))).
Proof.
  intros cur quantized base.
  split; [|split; [|split]].
  - split; [apply (quantize_price_is_quantized _ cur)|].
    split; [apply (quantize_price_is_quantized _ cur)|].
    split; [apply (quantize_price_is_quantized _ cur)|].
    split.
    + intros v. unfold checkout_line_total.
      destruct (_find_checkout_line_info _ _); cbn [fst]; intros H;
        [discriminate|].
      injection H as <-. apply (quantize_price_is_quantized _ cur).
    + intros v. unfold checkout_line_unit_price.
      destruct (_find_checkout_line_info _ _) as [e|line_info]; cbn [fst];
        [discriminate|].
      destruct (taxed_div _ _); cbn [fst]; intros H; [discriminate|].
      injection H as <-. apply (quantize_price_is_quantized _ cur).
  - split.
    + apply base_prices_are_quantized.
    + apply base_subtotal_is_sum.
  - apply tax_data_prices_are_quantized.
  - intros P. apply plugin_prices_are_stored.
Qed.

(** ** The total on the flat-rate and tax-free paths *)

Lemma total_identity_set_price_expiration (currency : string) (c : Checkout)
  (t : datetime) :
  total_identity currency c ->
  total_identity currency (set_price_expiration c t).
Proof. intros H. exact H. Qed.

Lemma total_identity_remove_tax (currency : string) (st : State) :
  total_identity currency (the_checkout st) ->
  total_identity currency (the_checkout (_remove_tax st)).
Proof.
  unfold total_identity, _calculate_checkout_total, quantize_price, taxed_add.
  intros H.
  apply (f_equal net) in H. cbn in H.
  unfold _remove_tax. cbn.
  rewrite <- H. reflexivity.
Qed.


(** ** Read operations *)


Lemma Qcminus_lt_0 (x b : Qc) : (x - b < 0)%Qc <-> (x < b)%Qc.
Proof.
  rewrite (Qclt_minus_iff (x - b) 0), (Qclt_minus_iff x b).
  replace (0 + - (x - b))%Qc with (b + - x)%Qc by ring.
  reflexivity.
Qed.



(** C10: for a line found among the refreshed lines, a quantity above zero
    gives the line's total price divided by the quantity, quantized to the
    checkout's currency; with a quantity of zero the division raises and
    the operation has no result. *)
Theorem line_unit_price_divides_total (manager : PluginsManager)
  (checkout_line_info : CheckoutLineInfo) (discounts : list DiscountInfo)
  (st : State) :
  let currency := currency (the_checkout st) in
  let st' :=
    fetch_checkout_prices_if_expired manager
      (or_address (shipping_address (checkout_info st))
         (billing_address (checkout_info st)))
      (Some discounts) false st in
  forall line_info : CheckoutLineInfo,
    _find_checkout_line_info (lines st') checkout_line_info = inr line_info ->
    let checkout_line := line line_info in
    let n := decimal_of_int (quantity checkout_line) in
    ((0 < quantity checkout_line)%Z ->
     checkout_line_unit_price manager checkout_line_info discounts st
     = (inr (quantize_price
               (mkTaxedMoney (net (total_price checkout_line) / n)%Qc
                             (gross (total_price checkout_line) / n)%Qc)
               currency),
        st')) /\
    (quantity checkout_line = 0%Z ->
     exists e : Error,
       (e = DivisionByZero \/ e = InvalidOperation) /\
       checkout_line_unit_price manager checkout_line_info discounts st
       = (inl e, st')).
Proof.
  intros cur st' line_info Hfound checkout_line n.
  unfold checkout_line_unit_price.
  fold st'. rewrite Hfound. fold checkout_line.
  unfold taxed_div, decimal_div.
  split; intros Hq.
  - destruct (Z.eqb_spec (quantity checkout_line) 0) as [Hz|_]; [lia|].
    reflexivity.
  - rewrite Hq. cbn [Z.eqb].
    destruct (Qnum (this (net (total_price checkout_line))) =? 0)%Z;
      eexists; (split; [|reflexivity]); [right|left]; reflexivity.
Qed.

(** ** The course of a recomputation *)

Lemma runs_from_refl (st : State) : runs_from st [] st.
Proof.
  repeat split. symmetry. apply app_nil_r.
Qed.

Lemma runs_from_trans (a b c : State) (calls more : list Event) :
  runs_from a calls b -> runs_from b more c -> runs_from a (calls ++ more) c.
Proof.
  intros [Hn [Hd Hl]] [Hn' [Hd' Hl']].
  repeat split.
  - rewrite Hn'. exact Hn.
  - rewrite Hd'. exact Hd.
  - rewrite Hl', Hl. symmetry. apply app_assoc.
Qed.

Lemma remove_tax_runs (st : State) : runs_from st [] (_remove_tax st).
Proof.
  repeat split. symmetry. apply app_nil_r.
Qed.

Lemma apply_tax_data_runs (tax_data : option TaxData) (st : State) :
  runs_from st [] (_apply_tax_data tax_data st).
Proof.
  destruct tax_data; repeat split; symmetry; apply app_nil_r.
Qed.

Lemma plugin_lines_loop_calls (manager : PluginsManager) (ci : CheckoutInfo)
  (address : option Address) (discounts : list DiscountInfo) :
  forall todo done : list CheckoutLineInfo,
    snd (plugin_lines_loop manager ci done todo address discounts)
    = flat_map (fun _ => plugin_line_calls) todo.
Proof.
  induction todo as [|line_info todo IH]; intros done.
  - reflexivity.
  - cbn [plugin_lines_loop snd flat_map]. rewrite IH. reflexivity.
Qed.

Lemma plugins_run (manager : PluginsManager) (address : option Address)
  (discounts : option (list DiscountInfo)) (st : State) :
  runs_from st
    (flat_map (fun _ => plugin_line_calls) (lines st) ++ plugin_checkout_calls)
    (_apply_tax_data_from_plugins manager address discounts st).
Proof.
  repeat split.
  unfold _apply_tax_data_from_plugins.
  cbn [log emit put_checkout put_lines].
  rewrite plugin_lines_loop_calls. symmetry. apply app_assoc.
Qed.

Lemma base_prices_run (discounts : option (list DiscountInfo)) (st : State) :
  runs_from st
    (flat_map (fun _ => base_line_calls) (lines st) ++ base_checkout_calls)
    (_get_checkout_base_prices discounts st).
Proof.
  repeat split.
  unfold _get_checkout_base_prices.
  cbn [log emit put_checkout put_lines].
  symmetry. apply app_assoc.
Qed.

Lemma tax_app_runs (manager : PluginsManager) (with_tax : bool)
  (address : option Address) (discounts : option (list DiscountInfo))
  (st : State) :
  runs_from st
    (flat_map (fun _ => plugin_line_calls) (lines st)
     ++ plugin_checkout_calls ++ [PluginCall "get_taxes_for_checkout"])
    (_calculate_and_add_tax TAX_APP manager with_tax address discounts st).
Proof.
  unfold _calculate_and_add_tax.
  change (String.eqb TAX_APP TAX_APP) with true. cbv iota.
  set (plugged := _apply_tax_data_from_plugins manager address discounts st).
  destruct (plugins_run manager address discounts st) as [Hn [Hd Hl]].
  fold plugged in Hn, Hd, Hl.
  destruct (apply_tax_data_runs
              (get_taxes_for_checkout manager (checkout_info plugged)
                 (lines plugged))
              (emit [PluginCall "get_taxes_for_checkout"] plugged))
    as [Hn' [Hd' Hl']].
  repeat split.
  - rewrite Hn'. exact Hn.
  - rewrite Hd'. exact Hd.
  - rewrite Hl', app_nil_r. cbn [log emit]. rewrite Hl.
    rewrite <- !app_assoc. reflexivity.
Qed.

Lemma calculate_and_add_tax_runs (strategy : string)
  (manager : PluginsManager) (with_tax : bool) (address : option Address)
  (discounts : option (list DiscountInfo)) (st : State) :
  exists calls,
    runs_from st calls
      (_calculate_and_add_tax strategy manager with_tax address discounts st).
Proof.
  destruct (String.eqb_spec strategy TAX_APP) as [->|Happ].
  - eexists. apply tax_app_runs.
  - unfold _calculate_and_add_tax.
    apply String.eqb_neq in Happ. rewrite Happ.
    destruct (String.eqb strategy FLAT_RATES).
    + exists [FlatRatesCall]. repeat split.
    + exists []. apply runs_from_refl.
Qed.

(** The state a recomputation returns is the state [priced] of its pricing
    branch, stamped and persisted. *)
Definition stamped (priced : State) : State :=
  bulk_update
    (save
       (put_checkout
          (set_price_expiration (the_checkout priced)
             (now priced + CHECKOUT_PRICES_TTL)%Z)
          priced)).

Lemma fetch_recomputes (manager : PluginsManager) (address : option Address)
  (discounts : option (list DiscountInfo)) (force_update : bool) (st : State) :
  recomputes force_update st ->
  exists (priced : State) (calls : list Event),
    runs_from st calls priced /\
    fetch_checkout_prices_if_expired manager address discounts force_update st
    = stamped priced.
Proof.
  intros Hrun.
  unfold fetch_checkout_prices_if_expired.
  rewrite (fetch_guard_false _ _ Hrun).
  cbv zeta.
  set (strategy :=
         get_tax_calculation_strategy_for_checkout (checkout_info st) (lines st)).
  set (should_charge_tax :=
         get_charge_taxes_for_checkout (checkout_info st) (lines st)
         && negb (tax_exemption (the_checkout st))).
  destruct (prices_entered_with_tax (tax_configuration (checkout_info st)))
    eqn:Hwith.
  - destruct (calculate_and_add_tax_runs strategy manager true address
                discounts st) as [calls Hcalls].
    destruct (negb should_charge_tax).
    + eexists. exists (calls ++ []). split; [|reflexivity].
      eapply runs_from_trans; [exact Hcalls|apply remove_tax_runs].
    + eexists. exists calls. split; [exact Hcalls|reflexivity].
  - destruct should_charge_tax.
    + destruct (calculate_and_add_tax_runs strategy manager false address
                  discounts st) as [calls Hcalls].
      eexists. exists calls. split; [exact Hcalls|reflexivity].
    + eexists. eexists. split; [apply base_prices_run|reflexivity].
Qed.

Lemma fetch_skips (manager : PluginsManager) (address : option Address)
  (discounts : option (list DiscountInfo)) (st : State) :
  (now st < price_expiration (the_checkout st))%Z ->
  fetch_checkout_prices_if_expired manager address discounts false st = st.
Proof.
  intros Hfresh. unfold fetch_checkout_prices_if_expired.
  apply Z.ltb_lt in Hfresh. rewrite Hfresh. reflexivity.
Qed.

Lemma stamped_runs (st priced : State) (calls : list Event) :
  runs_from st calls priced ->
  price_expiration (the_checkout (stamped priced))
  = (now st + CHECKOUT_PRICES_TTL)%Z /\
  now (stamped priced) = now st /\
  log (stamped priced)
  = log st ++ calls ++ persisting_calls (stamped priced).
Proof.
  intros [Hn [Hd Hl]].
  split; [|split].
  - cbn. rewrite Hn. reflexivity.
  - exact Hn.
  - unfold stamped, bulk_update, save, persisting_calls.
    cbn [log emit put_db put_checkout lines].
    rewrite Hl. rewrite <- !app_assoc. reflexivity.
Qed.

(** X1: a recomputation that runs (forced, or with expired prices) sets the
    expiration to the time of the call plus the TTL and ends with the two
    writes, the save of the checkout and the bulk update of its lines,
    after whatever calls its pricing branch made. *)
Theorem recomputation_stamps_and_persists (manager : PluginsManager)
  (address : option Address) (discounts : option (list DiscountInfo))
  (force_update : bool) (st : State) :
  recomputes force_update st ->
  let st' :=
    fetch_checkout_prices_if_expired manager address discounts force_update
      st in
  price_expiration (the_checkout st') = (now st + CHECKOUT_PRICES_TTL)%Z /\
  exists calls : list Event,
    log st' = log st ++ calls ++ persisting_calls st'.
Proof.
  intros Hrun st'.
  destruct (fetch_recomputes manager address discounts force_update st Hrun)
    as [priced [calls [Hruns E]]].
  unfold st'. rewrite E.
  destruct (stamped_runs st priced calls Hruns) as [Hexp [_ Hlog]].
  split; [exact Hexp|].
  exists calls. exact Hlog.
Qed.

(** X2: after a recomputation has run, a call without force whose reading
    of the clock is less than the TTL after the clock of that run finds the
    prices fresh: it changes nothing, calls no collaborator and writes
    nothing, whatever manager, address and discounts it is given. *)
Theorem fetch_within_ttl_changes_nothing (manager manager' : PluginsManager)
  (address address' : option Address)
  (discounts discounts' : option (list DiscountInfo))
  (force_update : bool) (later : datetime) (st : State) :
  recomputes force_update st ->
  (later < now st + CHECKOUT_PRICES_TTL)%Z ->
  let st' :=
    at_time later
      (fetch_checkout_prices_if_expired manager address discounts
         force_update st) in
  fetch_checkout_prices_if_expired manager' address' discounts' false st'
  = st'.
Proof.
  intros Hrun Hlater st'.
  apply fetch_skips.
  destruct (fetch_recomputes manager address discounts force_update st Hrun)
    as [priced [calls [Hruns E]]].
  unfold st'. rewrite E.
  destruct (stamped_runs st priced calls Hruns) as [Hexp _].
  change (later < price_expiration (the_checkout (stamped priced)))%Z.
  rewrite Hexp. exact Hlater.
Qed.

(** ** What a recomputation persists *)

Lemma find_by_pk (objs : list CheckoutLine) (o : CheckoutLine) :
  NoDup (map pk objs) ->
  In o objs ->
  find (fun o' => (pk o' =? pk o)%Z) objs = Some o.
Proof.
  induction objs as [|x objs IH]; intros Hnodup Hin; [destruct Hin|].
  inversion Hnodup as [|? ? Hfresh Hrest]; subst.
  cbn [find]. destruct Hin as [->|Hin].
  - rewrite Z.eqb_refl. reflexivity.
  - destruct (Z.eqb_spec (pk x) (pk o)) as [Heq|_].
    + exfalso. apply Hfresh. rewrite Heq. apply in_map. exact Hin.
    + apply IH; assumption.
Qed.

Lemma find_by_pk_none (objs : list CheckoutLine) (key : Z) :
  find (fun o' => (pk o' =? key)%Z) objs = None ->
  forall o, In o objs -> pk o <> key.
Proof.
  intros Hnone o Hin Heq.
  apply (find_none _ _ Hnone) in Hin.
  apply Z.eqb_neq in Hin. contradiction.
Qed.

Lemma stamped_objects (priced : State) :
  lines (stamped priced) = lines priced /\
  stored_money (stamped priced) = stored_money priced /\
  checkout_frame (the_checkout (stamped priced))
  = checkout_frame (the_checkout priced) /\
  info_frame (checkout_info (stamped priced))
  = info_frame (checkout_info priced).
Proof.
  split; [reflexivity|]. split; [reflexivity|]. split; reflexivity.
Qed.

Lemma stamped_checkout_row (priced : State) :
  row_holds (checkout_row (db (stamped priced)))
    (the_checkout (stamped priced)) /\
  tax_exemption (checkout_row (db (stamped priced)))
  = tax_exemption (checkout_row (db priced)).
Proof.
  unfold row_holds.
  split; [|reflexivity].
  split; [reflexivity|]. split; [reflexivity|]. split; [reflexivity|].
  split; [reflexivity|]. split; [reflexivity|]. split; [reflexivity|].
  split; [reflexivity|]. split; [reflexivity|]. split; reflexivity.
Qed.

Lemma stamped_line_rows (priced : State) :
  line_rows (db (stamped priced))
  = map (fun row =>
           match
             find (fun o => (pk o =? pk row)%Z) (map line (lines priced))
           with
           | Some o =>
               mkCheckoutLine (pk row) (quantity row)
                 (total_price_net_amount o) (total_price_gross_amount o)
                 (tax_rate o)
           | None => row
           end)
      (line_rows (db priced)).
Proof. reflexivity. Qed.

(** X3: after a recomputation the row of the checkout holds every saved
    field of the checkout handed back, and keeps its own tax exemption
    flag. The rows of the lines keep their keys and quantities; when the
    lines have distinct keys, a row with the key of a line holds that
    line's total price and tax rate, and a row with the key of no line is
    a row that was there before. *)
Theorem recomputation_persists_prices (manager : PluginsManager)
  (address : option Address) (discounts : option (list DiscountInfo))
  (force_update : bool) (st : State) :
  recomputes force_update st ->
  let st' :=
    fetch_checkout_prices_if_expired manager address discounts force_update
      st in
  NoDup (map pk (map line (lines st'))) ->
  row_holds (checkout_row (db st')) (the_checkout st') /\
  tax_exemption (checkout_row (db st'))
  = tax_exemption (checkout_row (db st)) /\
  map pk (line_rows (db st')) = map pk (line_rows (db st)) /\
  map quantity (line_rows (db st')) = map quantity (line_rows (db st)) /\
  (forall (line_info : CheckoutLineInfo) (row : CheckoutLine),
      In line_info (lines st') ->
      In row (line_rows (db st')) ->
      pk row = pk (line line_info) ->
      total_price row = total_price (line line_info) /\
      tax_rate row = tax_rate (line line_info)) /\
  (forall row : CheckoutLine,
      In row (line_rows (db st')) ->
      (forall line_info, In line_info (lines st') ->
                         pk (line line_info) <> pk row) ->
      In row (line_rows (db st))).
Proof.
  intros Hrun st'.
  destruct (fetch_recomputes manager address discounts force_update st Hrun)
    as [priced [calls [[_ [Hdb _]] E]]].
  unfold st'. rewrite E. clear E st'.
  destruct (stamped_objects priced) as [Hlines _].
  rewrite Hlines, stamped_line_rows, Hdb.
  destruct (stamped_checkout_row priced) as [Hrow Hexempt].
  rewrite Hdb in Hexempt.
  intros Hnodup.
  split; [exact Hrow|]. split; [exact Hexempt|].
  split; [|split; [|split]].
  - rewrite map_map. apply map_ext. intros row.
    destruct (find _ _); reflexivity.
  - rewrite map_map. apply map_ext. intros row.
    destruct (find _ _); reflexivity.
  - intros line_info row Hin Hrow' Hkey.
    apply in_map_iff in Hrow'. destruct Hrow' as [old [<- _]].
    assert (Hpk : pk old = pk (line line_info)).
    { destruct (find _ _) in Hkey; exact Hkey. }
    rewrite Hpk.
    rewrite (find_by_pk (map line (lines priced)) (line line_info) Hnodup
               (in_map line _ _ Hin)).
    split; reflexivity.
  - intros row Hrow' Hnone.
    apply in_map_iff in Hrow'. destruct Hrow' as [old [<- Hold]].
    destruct (find _ _) as [o|] eqn:Hfind; [|exact Hold].
    exfalso.
    destruct (find_some _ _ Hfind) as [Ho Hpk].
    apply in_map_iff in Ho. destruct Ho as [line_info [<- Hin]].
    apply (Hnone line_info Hin). apply Z.eqb_eq in Hpk. exact Hpk.
Qed.

(** ** Prices without tax *)

Lemma taxed_sum_gross_is_net (values : list TaxedMoney) :
  forall start : TaxedMoney,
    gross start = net start ->
    Forall (fun v => gross v = net v) values ->
    gross (taxed_sum values start) = net (taxed_sum values start).
Proof.
  unfold taxed_sum.
  induction values as [|v values IH]; intros start Hs Hv; cbn [fold_left].
  - exact Hs.
  - inversion Hv as [|? ? Hhead Htail]; subst.
    apply IH; [|exact Htail].
    cbn. rewrite Hs, Hhead. reflexivity.
Qed.

Lemma remove_tax_money (st : State) : money_gross_is_net (_remove_tax st).
Proof.
  unfold money_gross_is_net, stored_money.
  repeat apply Forall_cons; try reflexivity.
  unfold _remove_tax. cbn [lines put_lines].
  rewrite map_map. apply Forall_map, Forall_forall.
  intros line_info _. reflexivity.
Qed.

Lemma base_lines_gross_is_net (ci : CheckoutInfo) (currency : string)
  (discounts : list DiscountInfo) (ls : list CheckoutLineInfo) :
  Forall (fun v => gross v = net v)
    (map (fun line_info => total_price (line line_info))
       (map (base_line_step ci currency discounts) ls)).
Proof.
  rewrite map_map. apply Forall_map, Forall_forall.
  intros line_info _. reflexivity.
Qed.

Lemma base_prices_money (discounts : option (list DiscountInfo)) (st : State) :
  money_gross_is_net (_get_checkout_base_prices discounts st).
Proof.
  unfold money_gross_is_net, stored_money.
  repeat apply Forall_cons.
  - reflexivity.
  - rewrite (base_subtotal_is_sum discounts st).
    apply taxed_sum_gross_is_net; [reflexivity|].
    apply base_lines_gross_is_net.
  - reflexivity.
  - apply base_lines_gross_is_net.
Qed.

(** X4: when no tax is to be charged (charge_taxes is off or the checkout
    is tax exempt), a recomputation leaves every stored gross amount equal
    to its net amount, on the checkout and on every line, whether prices
    were entered with tax (the tax is removed) or without (base prices). *)
Theorem untaxed_recomputation_has_gross_equal_net (manager : PluginsManager)
  (address : option Address) (discounts : option (list DiscountInfo))
  (force_update : bool) (st : State) :
  recomputes force_update st ->
  get_charge_taxes_for_checkout (checkout_info st) (lines st)
    && negb (tax_exemption (the_checkout st)) = false ->
  money_gross_is_net
    (fetch_checkout_prices_if_expired manager address discounts force_update
       st).
Proof.
  intros Hrun Hcharge.
  unfold fetch_checkout_prices_if_expired.
  rewrite (fetch_guard_false _ _ Hrun), Hcharge. cbv zeta.
  unfold money_gross_is_net.
  destruct (prices_entered_with_tax (tax_configuration (checkout_info st))).
  - cbn [negb].
    match goal with
    | |- Forall _ (stored_money (bulk_update (save (put_checkout _ ?p)))) =>
        change (Forall (fun v => gross v = net v) (stored_money (stamped p)));
        rewrite (proj1 (proj2 (stamped_objects p)))
    end.
    apply remove_tax_money.
  - match goal with
    | |- Forall _ (stored_money (bulk_update (save (put_checkout _ ?p)))) =>
        change (Forall (fun v => gross v = net v) (stored_money (stamped p)));
        rewrite (proj1 (proj2 (stamped_objects p)))
    end.
    apply base_prices_money.
Qed.

(** ** Which collaborators a recomputation calls *)

Lemma stamped_log (st priced : State) (calls : list Event) :
  runs_from st calls priced ->
  log (stamped priced) = log st ++ calls ++ persisting_calls (stamped priced).
Proof.
  intros Hruns. apply (stamped_runs st priced calls Hruns).
Qed.

(** X5: on the tax-free path (prices entered without tax, no tax to
    charge) a recomputation calls the base price functions only: two calls
    for each line, the delivery price and the checkout total, and then the
    two writes. The plugin manager and the flat-rate engine are not
    called. *)
Theorem tax_free_path_calls_base_prices_only (manager : PluginsManager)
  (address : option Address) (discounts : option (list DiscountInfo))
  (force_update : bool) (st : State) :
  recomputes force_update st ->
  prices_entered_with_tax (tax_configuration (checkout_info st)) = false ->
  get_charge_taxes_for_checkout (checkout_info st) (lines st)
    && negb (tax_exemption (the_checkout st)) = false ->
  let st' :=
    fetch_checkout_prices_if_expired manager address discounts force_update
      st in
  log st'
  = log st
    ++ (flat_map (fun _ => base_line_calls) (lines st) ++ base_checkout_calls)
    ++ persisting_calls st'.
Proof.
  intros Hrun Hwith Hcharge st'.
  assert (E : st' = stamped (_get_checkout_base_prices discounts st)).
  { unfold st', fetch_checkout_prices_if_expired.
    rewrite (fetch_guard_false _ _ Hrun), Hwith, Hcharge. reflexivity. }
  rewrite E.
  apply stamped_log, base_prices_run.
Qed.

(** X6: when tax is computed with the TAX_APP strategy, a recomputation
    calls the plugin manager three times for each line, four times for the
    checkout and once for the consolidated tax data, and then makes the two
    writes; the base price functions and the flat-rate engine are not
    called. *)
Theorem tax_app_path_calls_the_manager_only (manager : PluginsManager)
  (address : option Address) (discounts : option (list DiscountInfo))
  (force_update : bool) (st : State) :
  recomputes force_update st ->
  get_tax_calculation_strategy_for_checkout (checkout_info st) (lines st)
  = TAX_APP ->
  prices_entered_with_tax (tax_configuration (checkout_info st)) = true \/
  get_charge_taxes_for_checkout (checkout_info st) (lines st)
    && negb (tax_exemption (the_checkout st)) = true ->
  let st' :=
    fetch_checkout_prices_if_expired manager address discounts force_update
      st in
  log st'
  = log st
    ++ (flat_map (fun _ => plugin_line_calls) (lines st)
        ++ plugin_checkout_calls ++ [PluginCall "get_taxes_for_checkout"])
    ++ persisting_calls st'.
Proof.
  intros Hrun Happ Hpath st'.
  set (with_tax := prices_entered_with_tax (tax_configuration (checkout_info st))).
  set (should_charge_tax :=
         get_charge_taxes_for_checkout (checkout_info st) (lines st)
         && negb (tax_exemption (the_checkout st))).
  pose (taxed :=
          _calculate_and_add_tax TAX_APP manager with_tax address discounts st).
  assert (Htaxed :
            runs_from st
              (flat_map (fun _ => plugin_line_calls) (lines st)
               ++ plugin_checkout_calls
               ++ [PluginCall "get_taxes_for_checkout"]) taxed)
    by apply tax_app_runs.
  assert (E : st' = stamped taxed \/ st' = stamped (_remove_tax taxed)).
  { unfold st', fetch_checkout_prices_if_expired.
    rewrite (fetch_guard_false _ _ Hrun), Happ.
    fold with_tax should_charge_tax. fold with_tax should_charge_tax in Hpath.
    cbv zeta. fold taxed.
    destruct with_tax.
    - destruct (negb should_charge_tax); [right|left]; reflexivity.
    - destruct Hpath as [Hp|Hp]; [discriminate|]. rewrite Hp.
      left. reflexivity. }
  destruct E as [-> | ->].
  - apply stamped_log. exact Htaxed.
  - apply stamped_log.
    rewrite <- (app_nil_r (_ ++ _ ++ [PluginCall "get_taxes_for_checkout"])).
    eapply runs_from_trans; [exact Htaxed|apply remove_tax_runs].
Qed.

(** ** Tax computed and then removed *)

Lemma remove_tax_keeps_net (st : State) :
  map net (stored_money (_remove_tax st)) = map net (stored_money st).
Proof.
  unfold stored_money, _remove_tax.
  cbn [lines put_lines map]. rewrite !map_map.
  reflexivity.
Qed.

Lemma apply_tax_data_after_emit (tax_data : option TaxData)
  (calls : list Event) (st : State) :
  checkout_info (_apply_tax_data tax_data (emit calls st))
  = checkout_info (_apply_tax_data tax_data st) /\
  lines (_apply_tax_data tax_data (emit calls st))
  = lines (_apply_tax_data tax_data st).
Proof.
  destruct tax_data; split; reflexivity.
Qed.

(** C2: a recomputation with prices entered with tax and no tax to charge
    first computes the tax with the strategy of the checkout and then
    removes it. With TAX_APP the plugin manager is called for every line
    and for the checkout and asked for the consolidated tax data, and what
    is computed is what [_apply_tax_data] makes of the manager's answers;
    with FLAT_RATES the flat-rate engine is called once and what is
    computed is what it returns. The checkout and the lines handed back
    are those of [_remove_tax] applied to what was computed (with the new
    expiration): every net amount is the computed one, every gross amount
    of the checkout equals its net amount, the shipping tax rate is zero,
    and every line has its gross total equal to its net total and a zero
    tax rate. *)
Theorem tax_computed_then_removed (manager : PluginsManager)
  (address : option Address) (discounts : option (list DiscountInfo))
  (force_update : bool) (st : State) :
  force_update = true \/ (price_expiration (the_checkout st) <= now st)%Z ->
  prices_entered_with_tax (tax_configuration (checkout_info st)) = true ->
  get_charge_taxes_for_checkout (checkout_info st) (lines st)
    && negb (tax_exemption (the_checkout st)) = false ->
  let strategy :=
    get_tax_calculation_strategy_for_checkout (checkout_info st) (lines st) in
  let computed :=
    _calculate_and_add_tax strategy manager true address discounts st in
  let st' :=
    fetch_checkout_prices_if_expired manager address discounts force_update
      st in
  (strategy = TAX_APP ->
   let plugged := _apply_tax_data_from_plugins manager address discounts st in
   let tax_data :=
     get_taxes_for_checkout manager (checkout_info plugged) (lines plugged) in
   checkout_info computed = checkout_info (_apply_tax_data tax_data plugged) /\
   lines computed = lines (_apply_tax_data tax_data plugged) /\
   log st'
   = log st
     ++ (flat_map (fun _ => plugin_line_calls) (lines st)
         ++ plugin_checkout_calls ++ [PluginCall "get_taxes_for_checkout"])
     ++ persisting_calls st') /\
  (strategy = FLAT_RATES ->
   let engine :=
     update_checkout_prices_with_flat_rates (checkout_info st) (lines st) true
       address discounts in
   checkout_info computed = fst engine /\
   lines computed = snd engine /\
   log st' = log st ++ [FlatRatesCall] ++ persisting_calls st') /\
  map net (stored_money st') = map net (stored_money computed) /\
  the_checkout st'
  = set_price_expiration (the_checkout (_remove_tax computed))
      (now st + CHECKOUT_PRICES_TTL)%Z /\
  lines st' = lines (_remove_tax computed) /\
  gross_is_net (the_checkout st') /\
  Forall line_gross_is_net (lines st').
Proof.
  intros Hrun Hwith Hcharge strategy computed st'.
  assert (Hnow : now computed = now st) by apply calculate_and_add_tax_now.
  assert (E : st' = stamped (_remove_tax computed)).
  { unfold st', fetch_checkout_prices_if_expired.
    rewrite (fetch_guard_false _ _ Hrun), Hwith, Hcharge. reflexivity. }
  rewrite E.
  split; [|split]; [| |split; [|split; [|split; [|split]]]].
  - intros Happ plugged tax_data.
    assert (Ec : computed
                 = _apply_tax_data tax_data
                     (emit [PluginCall "get_taxes_for_checkout"] plugged)).
    { unfold computed, _calculate_and_add_tax. rewrite Happ.
      change (String.eqb TAX_APP TAX_APP) with true. reflexivity. }
    destruct (apply_tax_data_after_emit tax_data
                [PluginCall "get_taxes_for_checkout"] plugged)
      as [Hinfo Hlines].
    split; [rewrite Ec; exact Hinfo|].
    split; [rewrite Ec; exact Hlines|].
    apply stamped_log.
    rewrite <- (app_nil_r (_ ++ _ ++ [PluginCall "get_taxes_for_checkout"])).
    eapply runs_from_trans; [|apply remove_tax_runs].
    unfold computed. rewrite Happ. apply tax_app_runs.
  - intros Hflat engine.
    assert (Ec : computed
                 = emit [FlatRatesCall]
                     (mkState (fst engine) (snd engine) (now st) (db st)
                        (log st))).
    { unfold computed, _calculate_and_add_tax. rewrite Hflat.
      change (String.eqb FLAT_RATES TAX_APP) with false.
      change (String.eqb FLAT_RATES FLAT_RATES) with true. reflexivity. }
    split; [rewrite Ec; reflexivity|].
    split; [rewrite Ec; reflexivity|].
    apply stamped_log.
    rewrite <- (app_nil_r [FlatRatesCall]).
    eapply runs_from_trans; [|apply remove_tax_runs].
    rewrite Ec. split; [|split]; reflexivity.
  - rewrite (proj1 (proj2 (stamped_objects (_remove_tax computed)))).
    apply remove_tax_keeps_net.
  - rewrite <- Hnow. reflexivity.
  - reflexivity.
  - change (gross_is_net
              (set_price_expiration (the_checkout (_remove_tax computed))
                 (now (_remove_tax computed) + CHECKOUT_PRICES_TTL)%Z)).
    apply gross_is_net_set_price_expiration, remove_tax_checkout.
  - change (Forall line_gross_is_net (lines (_remove_tax computed))).
    apply remove_tax_lines.
Qed.

(** ** The flat-rate path *)


Lemma flat_rates_by_spec_currency (ci : CheckoutInfo)
  (ls : list CheckoutLineInfo) (with_tax : bool) (address : option Address)
  (discounts : option (list DiscountInfo)) :
  currency (checkout (fst (flat_rates_by_spec ci ls with_tax address discounts)))
  = currency (checkout ci).
Proof. reflexivity. Qed.


(** ** What a recomputation leaves alone *)

Lemma apply_tax_lines_identity (currency : string)
  (ls : list CheckoutLineInfo) :
  forall entries : list TaxLineData,
    map line_identity (apply_tax_lines currency ls entries)
    = map line_identity ls.
Proof.
  induction ls as [|l ls IH]; intros [|e entries]; cbn [apply_tax_lines map];
    try reflexivity.
  rewrite IH. reflexivity.
Qed.

Lemma plugin_lines_loop_identity (manager : PluginsManager)
  (ci : CheckoutInfo) (address : option Address)
  (discounts : list DiscountInfo) :
  forall todo done : list CheckoutLineInfo,
    map line_identity
      (fst (plugin_lines_loop manager ci done todo address discounts))
    = map line_identity (done ++ todo).
Proof.
  induction todo as [|line_info todo IH]; intros done.
  - cbn [plugin_lines_loop fst]. rewrite app_nil_r. reflexivity.
  - cbn [plugin_lines_loop fst]. rewrite IH.
    rewrite <- app_assoc, !map_app. reflexivity.
Qed.

(** The state [after] has the lines of [before], in order, with their keys,
    quantities and variants, and the same fields of the checkout and of the
    checkout info apart from prices and expiration. *)
Definition same_frame (before after : State) : Prop :=
  map line_identity (lines after) = map line_identity (lines before) /\
  checkout_frame (the_checkout after) = checkout_frame (the_checkout before) /\
  info_frame (checkout_info after) = info_frame (checkout_info before).

Lemma same_frame_trans (a b c : State) :
  same_frame a b -> same_frame b c -> same_frame a c.
Proof.
  intros [H1 [H2 H3]] [H1' [H2' H3']].
  split; [|split]; etransitivity; eassumption.
Qed.

Lemma remove_tax_frame (st : State) : same_frame st (_remove_tax st).
Proof.
  split; [|split; reflexivity].
  unfold _remove_tax. cbn [lines put_lines].
  rewrite map_map. apply map_ext. intros line_info. reflexivity.
Qed.

Lemma apply_tax_data_frame (tax_data : option TaxData) (st : State) :
  same_frame st (_apply_tax_data tax_data st).
Proof.
  destruct tax_data as [tax_data|]; [|split; [|split]; reflexivity].
  split; [|split; reflexivity].
  rewrite apply_tax_data_lines. apply apply_tax_lines_identity.
Qed.

Lemma plugins_frame (manager : PluginsManager) (address : option Address)
  (discounts : option (list DiscountInfo)) (st : State) :
  same_frame st (_apply_tax_data_from_plugins manager address discounts st).
Proof.
  split; [|split; reflexivity].
  unfold _apply_tax_data_from_plugins. cbn [lines emit put_checkout put_lines].
  apply plugin_lines_loop_identity.
Qed.

Lemma base_prices_frame (discounts : option (list DiscountInfo)) (st : State) :
  same_frame st (_get_checkout_base_prices discounts st).
Proof.
  split; [|split; reflexivity].
  unfold _get_checkout_base_prices. cbn [lines emit put_checkout put_lines].
  rewrite map_map. apply map_ext. intros line_info. reflexivity.
Qed.

Lemma stamped_frame (priced : State) : same_frame priced (stamped priced).
Proof.
  split; [|split]; reflexivity.
Qed.

Lemma calculate_and_add_tax_frame (strategy : string)
  (manager : PluginsManager) (with_tax : bool) (address : option Address)
  (discounts : option (list DiscountInfo)) (st : State) :
  strategy <> FLAT_RATES ->
  same_frame st
    (_calculate_and_add_tax strategy manager with_tax address discounts st).
Proof.
  intros Hflat. unfold _calculate_and_add_tax.
  apply String.eqb_neq in Hflat. rewrite Hflat.
  destruct (String.eqb strategy TAX_APP);
    [|split; [|split]; reflexivity].
  set (plugged := _apply_tax_data_from_plugins manager address discounts st).
  apply (same_frame_trans st plugged); [apply plugins_frame|].
  apply (same_frame_trans plugged
           (emit [PluginCall "get_taxes_for_checkout"] plugged)).
  - split; [|split]; reflexivity.
  - apply apply_tax_data_frame.
Qed.

(** X7: a recomputation that does not go through the flat-rate engine
    changes prices, tax rates and the expiration only: the lines handed
    back are the lines given, in the same order and number, with their
    keys, quantities and variants, and the currency, tax exemption and
    discount fields of the checkout, and the channel, addresses and tax
    configuration of the checkout info, are untouched. *)
Theorem recomputation_changes_prices_only (manager : PluginsManager)
  (address : option Address) (discounts : option (list DiscountInfo))
  (force_update : bool) (st : State) :
  get_tax_calculation_strategy_for_checkout (checkout_info st) (lines st)
  <> FLAT_RATES ->
  let st' :=
    fetch_checkout_prices_if_expired manager address discounts force_update
      st in
  map line_identity (lines st') = map line_identity (lines st) /\
  checkout_frame (the_checkout st') = checkout_frame (the_checkout st) /\
  info_frame (checkout_info st') = info_frame (checkout_info st).
Proof.
  intros Hflat st'.
  change (same_frame st st').
  unfold st', fetch_checkout_prices_if_expired.
  destruct (negb force_update && (now st <? price_expiration (the_checkout st))%Z);
    [split; [|split]; reflexivity|].
  cbv zeta.
  match goal with
  | |- same_frame _ (bulk_update (save (put_checkout _ ?p))) =>
      change (same_frame st (stamped p));
      apply (same_frame_trans st p); [|apply stamped_frame]
  end.
  destruct (prices_entered_with_tax (tax_configuration (checkout_info st))).
  - destruct (negb _).
    + eapply same_frame_trans; [|apply remove_tax_frame].
      apply calculate_and_add_tax_frame. exact Hflat.
    + apply calculate_and_add_tax_frame. exact Hflat.
  - destruct (_ && _).
    + apply calculate_and_add_tax_frame. exact Hflat.
    + apply base_prices_frame.
Qed.

(** ** Tax removal, tax data and sums *)

(** X8: removing the tax twice is removing it once, and removing it leaves
    every net amount, of the checkout and of the lines, as it was. *)
Theorem remove_tax_is_idempotent (st : State) :
  _remove_tax (_remove_tax st) = _remove_tax st /\
  map net (stored_money (_remove_tax st)) = map net (stored_money st).
Proof.
  split.
  - unfold _remove_tax, put_lines, put_checkout, the_checkout.
    cbn [checkout_info lines now db log].
    f_equal.
    rewrite map_map. apply map_ext. intros line_info. reflexivity.
  - unfold stored_money, _remove_tax.
    cbn [lines put_lines map]. rewrite !map_map.
    reflexivity.
Qed.

Lemma apply_tax_lines_prices (currency : string)
  (ls : list CheckoutLineInfo) :
  forall entries : list TaxLineData,
    (List.length ls <= List.length entries)%nat ->
    map (fun line_info =>
           (total_price (line line_info), tax_rate (line line_info)))
      (apply_tax_lines currency ls entries)
    = map (fun entry =>
             (quantize_price
                (mkTaxedMoney (tl_total_net_amount entry)
                   (tl_total_gross_amount entry)) currency,
              normalize_tax_rate_for_db (tl_tax_rate entry)))
        (firstn (List.length ls) entries).
Proof.
  induction ls as [|l ls IH]; intros [|e entries] Hlen; cbn in Hlen;
    try reflexivity; try lia.
  cbn [apply_tax_lines List.length firstn map].
  rewrite IH by lia. reflexivity.
Qed.

Lemma apply_tax_data_shipping (tax_data : TaxData) (st : State) :
  let st' := _apply_tax_data (Some tax_data) st in
  shipping_price (the_checkout st')
  = quantize_price
      (mkTaxedMoney (td_shipping_price_net_amount tax_data)
         (td_shipping_price_gross_amount tax_data))
      (currency (the_checkout st)) /\
  shipping_tax_rate (the_checkout st')
  = normalize_tax_rate_for_db (td_shipping_tax_rate tax_data).
Proof. split; reflexivity. Qed.

(** X9: tax data with an entry for every line decides every price by
    itself: applied to two states with the same currency and the same
    number of lines it leaves the same total, subtotal, shipping price,
    shipping tax rate, line totals and line tax rates, whatever prices the
    states held before. *)
Theorem covering_tax_data_overrides_prices (tax_data : TaxData)
  (st1 st2 : State) :
  currency (the_checkout st1) = currency (the_checkout st2) ->
  List.length (lines st1) = List.length (lines st2) ->
  (List.length (lines st1) <= List.length (td_lines tax_data))%nat ->
  let after1 := _apply_tax_data (Some tax_data) st1 in
  let after2 := _apply_tax_data (Some tax_data) st2 in
  stored_money after1 = stored_money after2 /\
  shipping_tax_rate (the_checkout after1)
  = shipping_tax_rate (the_checkout after2) /\
  map (fun line_info => tax_rate (line line_info)) (lines after1)
  = map (fun line_info => tax_rate (line line_info)) (lines after2).
Proof.
  intros Hcur Hlen Hcover after1 after2.
  assert (Hboth :
            map (fun line_info =>
                   (total_price (line line_info), tax_rate (line line_info)))
              (lines after1)
            = map (fun line_info =>
                     (total_price (line line_info), tax_rate (line line_info)))
                (lines after2)).
  { unfold after1, after2. rewrite !apply_tax_data_lines.
    rewrite !apply_tax_lines_prices by lia.
    rewrite Hcur, Hlen. reflexivity. }
  assert (Hprices :
            map (fun line_info => total_price (line line_info)) (lines after1)
            = map (fun line_info => total_price (line line_info)) (lines after2)).
  { apply (f_equal (map fst)) in Hboth. rewrite !map_map in Hboth.
    exact Hboth. }
  assert (Hrates :
            map (fun line_info => tax_rate (line line_info)) (lines after1)
            = map (fun line_info => tax_rate (line line_info)) (lines after2)).
  { apply (f_equal (map snd)) in Hboth. rewrite !map_map in Hboth.
    exact Hboth. }
  destruct (apply_tax_data_totals tax_data st1) as [Hsub1 Htot1].
  destruct (apply_tax_data_totals tax_data st2) as [Hsub2 Htot2].
  destruct (apply_tax_data_shipping tax_data st1) as [Hship1 Hrate1].
  destruct (apply_tax_data_shipping tax_data st2) as [Hship2 Hrate2].
  fold after1 in Hsub1, Htot1, Hship1, Hrate1.
  fold after2 in Hsub2, Htot2, Hship2, Hrate2.
  assert (Hsub : subtotal (the_checkout after1) = subtotal (the_checkout after2)).
  { rewrite Hsub1, Hsub2, Hprices, Hcur. reflexivity. }
  assert (Hship :
            shipping_price (the_checkout after1)
            = shipping_price (the_checkout after2)).
  { rewrite Hship1, Hship2, Hcur. reflexivity. }
  split; [|split].
  - unfold stored_money.
    rewrite Htot1, Htot2, Hsub, Hship, Hprices, Hcur. reflexivity.
  - rewrite Hrate1, Hrate2. reflexivity.
  - exact Hrates.
Qed.

(** X10: tax data applied to a checkout without lines gives a subtotal of
    zero and a total equal to the shipping price it stores. *)
Theorem tax_data_on_checkout_without_lines (tax_data : TaxData) (st : State) :
  lines st = [] ->
  let st' := _apply_tax_data (Some tax_data) st in
  lines st' = [] /\
  subtotal (the_checkout st') = zero_taxed_money (currency (the_checkout st)) /\
  total (the_checkout st') = shipping_price (the_checkout st').
Proof.
  intros Hempty st'.
  assert (Hlines : lines st' = []).
  { unfold st'. rewrite apply_tax_data_lines, Hempty. reflexivity. }
  destruct (apply_tax_data_totals tax_data st) as [Hsub Htot].
  destruct (apply_tax_data_shipping tax_data st) as [Hship _].
  fold st' in Hsub, Htot, Hship.
  assert (Hzero :
            subtotal (the_checkout st')
            = zero_taxed_money (currency (the_checkout st))).
  { rewrite Hsub, Hlines. cbn [map taxed_sum fold_left].
    unfold quantize_price, zero_taxed_money. cbn [net gross].
    rewrite (is_quantized_zero
               (get_currency_precision (currency (the_checkout st)))).
    reflexivity. }
  split; [exact Hlines|]. split; [exact Hzero|].
  rewrite Htot, Hzero, Hship.
  unfold quantize_price, taxed_add, zero_taxed_money. cbn [net gross].
  rewrite !Qcplus_0_l.
  rewrite !(quantize_decimal_is_quantized
              (get_currency_precision (currency (the_checkout st)))).
  reflexivity.
Qed.

Lemma taxed_add_comm (a b : TaxedMoney) : taxed_add a b = taxed_add b a.
Proof.
  unfold taxed_add. f_equal; apply Qcplus_comm.
Qed.

Lemma taxed_add_assoc (a b c : TaxedMoney) :
  taxed_add (taxed_add a b) c = taxed_add a (taxed_add b c).
Proof.
  unfold taxed_add. cbn [net gross].
  f_equal; symmetry; apply Qcplus_assoc.
Qed.

Lemma taxed_sum_start (values : list TaxedMoney) :
  forall start v : TaxedMoney,
    taxed_sum values (taxed_add start v) = taxed_add (taxed_sum values start) v.
Proof.
  unfold taxed_sum.
  induction values as [|x values IH]; intros start v; cbn [fold_left].
  - reflexivity.
  - rewrite <- IH. f_equal.
    rewrite !taxed_add_assoc. f_equal. apply taxed_add_comm.
Qed.

Lemma taxed_sum_permutation (values values' : list TaxedMoney) :
  Permutation values values' ->
  forall start : TaxedMoney, taxed_sum values start = taxed_sum values' start.
Proof.
  induction 1 as [|x l l' _ IH|x y l|l l' l'' _ IH1 _ IH2]; intros start.
  - reflexivity.
  - unfold taxed_sum. cbn [fold_left]. apply IH.
  - unfold taxed_sum. cbn [fold_left]. f_equal.
    rewrite !taxed_add_assoc. f_equal. apply taxed_add_comm.
  - rewrite IH1. apply IH2.
Qed.

(** X11: the subtotal computed from the lines does not depend on the order
    of the lines. *)
Theorem subtotal_ignores_line_order (ls ls' : list CheckoutLineInfo)
  (currency : string) :
  Permutation ls ls' ->
  _calculate_checkout_subtotal ls currency
  = _calculate_checkout_subtotal ls' currency.
Proof.
  intros Hperm. unfold _calculate_checkout_subtotal.
  rewrite (taxed_sum_permutation _ _
             (Permutation_map (fun line_info => total_price (line line_info))
                Hperm)).
  reflexivity.
Qed.

(** ** Reading lines and totals *)

(** No line of [ls] has the key of [checkout_line_info]. *)
Definition key_is_missing (ls : list CheckoutLineInfo)
  (checkout_line_info : CheckoutLineInfo) : Prop :=
  Forall (fun line_info => pk (line line_info) <> pk (line checkout_line_info))
    ls.

Lemma find_line_found (ls : list CheckoutLineInfo)
  (checkout_line_info line_info : CheckoutLineInfo) :
  _find_checkout_line_info ls checkout_line_info = inr line_info ->
  exists before after,
    ls = before ++ line_info :: after /\
    pk (line line_info) = pk (line checkout_line_info) /\
    key_is_missing before checkout_line_info.
Proof.
  unfold _find_checkout_line_info, key_is_missing.
  induction ls as [|l ls IH]; cbn [find]; [discriminate|].
  destruct (Z.eqb_spec (pk (line l)) (pk (line checkout_line_info)))
    as [Heq|Hneq].
  - intros H. injection H as <-.
    exists [], ls. split; [reflexivity|]. split; [exact Heq|apply Forall_nil].
  - intros H. destruct (IH H) as [before [after [-> [Hkey Hmiss]]]].
    exists (l :: before), after.
    split; [reflexivity|]. split; [exact Hkey|].
    apply Forall_cons; assumption.
Qed.

Lemma find_line_missing (ls : list CheckoutLineInfo)
  (checkout_line_info : CheckoutLineInfo) :
  key_is_missing ls checkout_line_info <->
  _find_checkout_line_info ls checkout_line_info = inl StopIteration.
Proof.
  unfold _find_checkout_line_info, key_is_missing.
  induction ls as [|l ls IH]; cbn [find].
  - split; [reflexivity|intros _; apply Forall_nil].
  - destruct (Z.eqb_spec (pk (line l)) (pk (line checkout_line_info)))
      as [Heq|Hneq].
    + split; [|discriminate].
      intros H. inversion H; subst. contradiction.
    + rewrite <- IH. split.
      * intros H. inversion H; assumption.
      * intros H. apply Forall_cons; assumption.
Qed.

(** X12: looking a line up by the key of [checkout_line_info] gives the
    first line with that key; it raises StopIteration exactly when no line
    has the key, and raises nothing else. *)
Theorem find_checkout_line_info_by_key (ls : list CheckoutLineInfo)
  (checkout_line_info : CheckoutLineInfo) :
  (forall line_info : CheckoutLineInfo,
      _find_checkout_line_info ls checkout_line_info = inr line_info ->
      exists before after,
        ls = before ++ line_info :: after /\
        pk (line line_info) = pk (line checkout_line_info) /\
        key_is_missing before checkout_line_info) /\
  (key_is_missing ls checkout_line_info <->
   _find_checkout_line_info ls checkout_line_info = inl StopIteration) /\
  (forall e : Error,
      _find_checkout_line_info ls checkout_line_info = inl e ->
      e = StopIteration).
Proof.
  split; [|split].
  - intros line_info. apply find_line_found.
  - apply find_line_missing.
  - intros e. unfold _find_checkout_line_info.
    destruct (find _ _); intros H; [discriminate|].
    injection H as <-. reflexivity.
Qed.

(** X13: the three operations that read one line first refresh the prices
    and then look the line up among the refreshed lines. When a line has
    the key, the total is that line's quantized total price and the tax
    rate is its stored tax rate; when none has, each of the three raises
    StopIteration, after the recomputation has taken place. *)
Theorem line_reads_look_the_line_up (manager : PluginsManager)
  (checkout_line_info : CheckoutLineInfo) (discounts : list DiscountInfo)
  (st : State) :
  let currency := currency (the_checkout st) in
  let st' :=
    fetch_checkout_prices_if_expired manager
      (or_address (shipping_address (checkout_info st))
         (billing_address (checkout_info st)))
      (Some discounts) false st in
  (forall line_info : CheckoutLineInfo,
      _find_checkout_line_info (lines st') checkout_line_info = inr line_info ->
      checkout_line_total manager checkout_line_info discounts st
      = (inr (quantize_price (total_price (line line_info)) currency), st') /\
      checkout_line_tax_rate manager checkout_line_info discounts st
      = (inr (tax_rate (line line_info)), st')) /\
  (key_is_missing (lines st') checkout_line_info ->
   checkout_line_total manager checkout_line_info discounts st
   = (inl StopIteration, st') /\
   checkout_line_unit_price manager checkout_line_info discounts st
   = (inl StopIteration, st') /\
   checkout_line_tax_rate manager checkout_line_info discounts st
   = (inl StopIteration, st')).
Proof.
  intros cur st'.
  unfold checkout_line_total, checkout_line_unit_price, checkout_line_tax_rate.
  fold st'.
  split.
  - intros line_info Hfound. rewrite Hfound. split; reflexivity.
  - intros Hmissing. apply find_line_missing in Hmissing.
    rewrite Hmissing. split; [|split]; reflexivity.
Qed.

(** X14: when the gift card balance exceeds the gross checkout total the
    total with gift cards is zero money, net and gross; otherwise it is the
    checkout total with the balance taken off both the net and the gross
    amount. *)
Theorem gift_cards_cover_or_reduce (manager : PluginsManager)
  (address : option Address) (discounts : option (list DiscountInfo))
  (st : State) :
  let r := checkout_total manager address discounts st in
  let balance := get_total_gift_cards_balance (the_checkout (snd r)) in
  let res :=
    fst (calculate_checkout_total_with_gift_cards manager address discounts
           st) in
  ((gross (fst r) < balance)%Qc ->
   res = zero_taxed_money (currency (the_checkout (snd r)))) /\
  ((balance <= gross (fst r))%Qc ->
   res = mkTaxedMoney (net (fst r) - balance)%Qc (gross (fst r) - balance)%Qc).
Proof.
  intros r balance res.
  assert (E : res
              = taxed_max (taxed_sub_money (fst r) balance)
                  (zero_taxed_money (currency (the_checkout (snd r)))))
    by reflexivity.
  rewrite E. unfold taxed_max, taxed_ltb, taxed_sub_money, zero_taxed_money.
  cbn [gross].
  split; intros H.
  - apply (proj2 (Qcminus_lt_0 _ _)) in H.
    change ((gross (fst r) - balance ?= 0)%Qc = Lt) in H.
    rewrite H. reflexivity.
  - destruct (gross (fst r) - balance ?= 0)%Qc eqn:C; try reflexivity.
    change (gross (fst r) - balance < 0)%Qc in C.
    apply (proj1 (Qcminus_lt_0 _ _)) in C.
    destruct (Qcle_not_lt _ _ H C).
Qed.

(** X15: while the prices are fresh every read operation is a pure read:
    it returns the stored field (money quantized to the checkout's
    currency, tax rates as stored) and leaves the checkout, the lines, the
    database and the record of calls as they were. *)
Theorem reads_of_fresh_prices (manager : PluginsManager)
  (address : option Address) (discounts : option (list DiscountInfo))
  (st : State) :
  (now st < price_expiration (the_checkout st))%Z ->
  let c := the_checkout st in
  checkout_shipping_price manager address discounts st
  = (quantize_price (shipping_price c) (currency c), st) /\
  checkout_shipping_tax_rate manager address discounts st
  = (shipping_tax_rate c, st) /\
  checkout_subtotal manager address discounts st
  = (quantize_price (subtotal c) (currency c), st) /\
  checkout_total manager address discounts st
  = (quantize_price (total c) (currency c), st) /\
  calculate_checkout_total_with_gift_cards manager address discounts st
  = (taxed_max
       (taxed_sub_money (quantize_price (total c) (currency c))
          (get_total_gift_cards_balance c))
       (zero_taxed_money (currency c)),
     st).
Proof.
  intros Hfresh c.
  unfold calculate_checkout_total_with_gift_cards, checkout_shipping_price,
    checkout_shipping_tax_rate, checkout_subtotal, checkout_total.
  rewrite (fetch_skips manager address discounts st Hfresh).
  split; [reflexivity|]. split; [reflexivity|]. split; [reflexivity|].
  split; reflexivity.
Qed.

(** X16: with the TAX_APP strategy, whenever the plugin manager answers the
    consolidated call with tax data, the recomputed total is the quantized
    sum of subtotal and shipping price, and so it is when the tax is
    removed afterwards. *)
Theorem tax_app_total_is_subtotal_plus_shipping (manager : PluginsManager)
  (address : option Address) (discounts : option (list DiscountInfo))
  (force_update : bool) (tax_data : TaxData) (st : State) :
  recomputes force_update st ->
  get_tax_calculation_strategy_for_checkout (checkout_info st) (lines st)
  = TAX_APP ->
  prices_entered_with_tax (tax_configuration (checkout_info st)) = true \/
  get_charge_taxes_for_checkout (checkout_info st) (lines st)
    && negb (tax_exemption (the_checkout st)) = true ->
  let plugged := _apply_tax_data_from_plugins manager address discounts st in
  get_taxes_for_checkout manager (checkout_info plugged) (lines plugged)
  = Some tax_data ->
  total_identity (currency (the_checkout st))
    (the_checkout
       (fetch_checkout_prices_if_expired manager address discounts
          force_update st)).
Proof.
  intros Hrun Happ Hpath plugged Hdata.
  set (with_tax := prices_entered_with_tax (tax_configuration (checkout_info st))).
  set (should_charge_tax :=
         get_charge_taxes_for_checkout (checkout_info st) (lines st)
         && negb (tax_exemption (the_checkout st))).
  pose (taxed :=
          _calculate_and_add_tax TAX_APP manager with_tax address discounts st).
  assert (Htaxed : total_identity (currency (the_checkout st))
                     (the_checkout taxed)).
  { assert (E : taxed
                = _apply_tax_data (Some tax_data)
                    (emit [PluginCall "get_taxes_for_checkout"] plugged)).
    { unfold taxed, _calculate_and_add_tax.
      change (String.eqb TAX_APP TAX_APP) with true. cbv iota zeta.
      fold plugged.
      change (checkout_info (emit [PluginCall "get_taxes_for_checkout"] plugged))
        with (checkout_info plugged).
      change (lines (emit [PluginCall "get_taxes_for_checkout"] plugged))
        with (lines plugged).
      rewrite Hdata. reflexivity. }
    rewrite E.
    exact (proj2 (apply_tax_data_totals tax_data
                    (emit [PluginCall "get_taxes_for_checkout"] plugged))). }
  assert (E : fetch_checkout_prices_if_expired manager address discounts
                force_update st = stamped taxed
              \/ fetch_checkout_prices_if_expired manager address discounts
                   force_update st = stamped (_remove_tax taxed)).
  { unfold fetch_checkout_prices_if_expired.
    rewrite (fetch_guard_false _ _ Hrun), Happ.
    fold with_tax should_charge_tax. fold with_tax should_charge_tax in Hpath.
    cbv zeta. fold taxed.
    destruct with_tax.
    - destruct (negb should_charge_tax); [right|left]; reflexivity.
    - destruct Hpath as [Hp|Hp]; [discriminate|]. rewrite Hp.
      left. reflexivity. }
  destruct E as [-> | ->].
  - apply (total_identity_set_price_expiration _ (the_checkout taxed)).
    exact Htaxed.
  - apply (total_identity_set_price_expiration _
             (the_checkout (_remove_tax taxed))).
    apply total_identity_remove_tax. exact Htaxed.
Qed.

End Calculations.

(** ** The total with the flat-rate engine of the spec *)

Section SpecifiedFlatRates.

Variable get_currency_precision : string -> nat.
Variable normalize_tax_rate_for_db : Decimal -> Decimal.
Variable calculate_tax_rate : TaxedMoney -> Decimal.
Variable get_tax_calculation_strategy_for_checkout :
  CheckoutInfo -> list CheckoutLineInfo -> string.
Variable get_charge_taxes_for_checkout :
  CheckoutInfo -> list CheckoutLineInfo -> bool.
Variable base_calculations : BaseCalculations.
Variable CHECKOUT_PRICES_TTL : timedelta.
Variable flat_rate_line_total :
  CheckoutInfo -> CheckoutLineInfo -> bool -> list DiscountInfo -> TaxedMoney.
Variable flat_rate_of_line : CheckoutInfo -> CheckoutLineInfo -> Decimal.
Variable flat_rate_shipping_price :
  CheckoutInfo -> list CheckoutLineInfo -> bool -> TaxedMoney.
Variable flat_rate_of_shipping :
  CheckoutInfo -> list CheckoutLineInfo -> Decimal.

Local Abbreviation flat_rates :=
  (flat_rates_by_spec get_currency_precision flat_rate_line_total
     flat_rate_of_line flat_rate_shipping_price flat_rate_of_shipping).

Local Abbreviation fetch :=
  (fetch_checkout_prices_if_expired get_currency_precision
     normalize_tax_rate_for_db calculate_tax_rate
     get_tax_calculation_strategy_for_checkout get_charge_taxes_for_checkout
     flat_rates base_calculations CHECKOUT_PRICES_TTL).


End SpecifiedFlatRates.

(** ** The theorems on the sample data *)

(** The functions with the sample collaborators: a tax configuration that
    resolves to [strategy] and [charge_taxes], USD at two decimal places. *)
Local Abbreviation sample_fetch strategy charge_taxes :=
  (fetch_checkout_prices_if_expired Sample.precision Sample.normalize
     Sample.tax_rate_of (fun _ _ => strategy) (fun _ _ => charge_taxes)
     Sample.flat_rates Sample.base Sample.ttl).
Local Abbreviation sample_add_tax :=
  (_calculate_and_add_tax Sample.precision Sample.normalize Sample.flat_rates).
Local Abbreviation sample_apply_tax_data :=
  (_apply_tax_data Sample.precision Sample.normalize).

Ltac decimal_eq := apply Qc_is_canon; vm_compute; reflexivity.

Lemma taxed_money_eq (a b : TaxedMoney) :
  net a = net b -> gross a = gross b -> a = b.
Proof. destruct a, b. simpl. intros -> ->. reflexivity. Qed.

Ltac taxed_eq := apply taxed_money_eq; decimal_eq.

Ltac taxed_list_eq :=
  vm_compute;
  repeat (apply f_equal2; [apply taxed_money_eq; decimal_eq|]);
  reflexivity.

Example quantize_decimal_rounds_half_up :
  quantize_decimal 2 (dec 10005 3) = dec 1001 2 /\
  quantize_decimal 2 (dec 10004 3) = dec 1000 2 /\
  quantize_decimal 2 (dec (-10005) 3) = dec (-1001) 2 /\
  quantize_decimal 0 (dec 25 1) = dec 3 0.
Proof.
  split; [decimal_eq|]. split; [decimal_eq|]. split; decimal_eq.
Qed.

(** The clock stands at 1000 and the prices expire at 2000: nothing is
    recomputed. *)
Lemma fetch_fresh_returns_inputs_witness :
  let st := Sample.state false 2000 in
  let st' :=
    sample_fetch TAX_APP true (Sample.manager None) None None false st in
  checkout_info st' = checkout_info st /\
  lines st' = lines st /\
  log st' = log st /\
  db st' = db st.
Proof.
  apply (fetch_fresh_returns_inputs Sample.precision Sample.normalize
           Sample.tax_rate_of (fun _ _ => TAX_APP) (fun _ _ => true)
           Sample.flat_rates Sample.base Sample.ttl (Sample.manager None)
           None None (Sample.state false 2000)).
  reflexivity.
Defined.

(** Prices entered with tax, no tax charged, flat rates, prices expired at
    0: the tax of the flat-rate engine is computed and removed. *)
Lemma tax_computed_then_removed_witness :
  let st := Sample.state true 0 in
  let engine := Sample.flat_rates (checkout_info st) (lines st) true None None in
  let computed := sample_add_tax FLAT_RATES (Sample.manager None) true None None st in
  let st' :=
    sample_fetch FLAT_RATES false (Sample.manager None) None None false st in
  (checkout_info computed = fst engine /\
   lines computed = snd engine /\
   log st' = log st ++ [FlatRatesCall] ++ persisting_calls st') /\
  map net (stored_money st') = map net (stored_money computed) /\
  the_checkout st'
  = set_price_expiration (the_checkout (_remove_tax computed))
      (now st + Sample.ttl)%Z /\
  lines st' = lines (_remove_tax computed) /\
  gross_is_net (the_checkout st') /\
  Forall line_gross_is_net (lines st').
Proof.
  intros st engine computed st'.
  destruct (tax_computed_then_removed Sample.precision Sample.normalize
              Sample.tax_rate_of (fun _ _ => FLAT_RATES) (fun _ _ => false)
              Sample.flat_rates Sample.base Sample.ttl (Sample.manager None)
              None None false (Sample.state true 0))
    as [_ [Hflat Hrest]].
  - right. vm_compute. discriminate.
  - reflexivity.
  - reflexivity.
  - split; [apply Hflat; reflexivity|exact Hrest].
Defined.

Example removed_tax_on_sample :
  let st' :=
    sample_fetch FLAT_RATES false (Sample.manager None) None None false
      (Sample.state true 0) in
  total (the_checkout st') = mkTaxedMoney (dec 4500 2) (dec 4500 2) /\
  map (fun line_info => total_price (line line_info)) (lines st')
  = [mkTaxedMoney (dec 2000 2) (dec 2000 2);
     mkTaxedMoney (dec 2000 2) (dec 2000 2)] /\
  log st'
  = [FlatRatesCall; DbSave save_update_fields;
     DbBulkUpdate [1%Z; 2%Z] bulk_update_fields].
Proof.
  split; [taxed_eq|]. split; [|reflexivity].
  taxed_list_eq.
Qed.

(** The manager answers the consolidated call with None. *)
Lemma absent_tax_data_keeps_plugin_values_witness :
  let st := Sample.state false 0 in
  let plugged :=
    _apply_tax_data_from_plugins (Sample.manager None) None None st in
  let st' := sample_add_tax TAX_APP (Sample.manager None) false None None st in
  sample_apply_tax_data None plugged = plugged /\
  checkout_info st' = checkout_info plugged /\
  lines st' = lines plugged.
Proof.
  apply (absent_tax_data_keeps_plugin_values Sample.precision Sample.normalize
           Sample.flat_rates (Sample.manager None) false None None
           (Sample.state false 0)).
  reflexivity.
Defined.

Lemma unknown_strategy_is_skipped_witness :
  sample_add_tax "AVATAX"%string (Sample.manager None) false None None
    (Sample.state false 0)
  = Sample.state false 0.
Proof.
  apply (unknown_strategy_is_skipped Sample.precision Sample.normalize
           Sample.flat_rates "AVATAX"%string (Sample.manager None) false None
           None (Sample.state false 0)).
  - discriminate.
  - discriminate.
Defined.

(** C6 as stated fails: with the strategy "AVATAX" nothing is raised; the
    tax computation is skipped without a call to any collaborator, the
    prices are left as they were, and the recomputation goes on to stamp
    and persist them. *)
Lemma unknown_strategy_is_not_fatal :
  let st := Sample.state false 0 in
  let st' :=
    sample_fetch "AVATAX"%string true (Sample.manager None) None None false
      st in
  sample_add_tax "AVATAX"%string (Sample.manager None) false None None st = st /\
  lines st' = lines st /\
  the_checkout st'
  = set_price_expiration (the_checkout st) (now st + Sample.ttl)%Z /\
  log st'
  = [DbSave save_update_fields; DbBulkUpdate [1%Z; 2%Z] bulk_update_fields].
Proof.
  repeat split.
Qed.

(** Two entries for two lines. *)
Lemma tax_data_applied_positionally_witness :
  let tax_data := Sample.tax_data Sample.tax_lines in
  let st := Sample.state false 0 in
  let st' := sample_apply_tax_data (Some tax_data) st in
  List.length (lines st') = List.length (lines st) /\
  (forall (i : nat) (line_info : CheckoutLineInfo),
      nth_error (lines st) i = Some line_info ->
      exists entry after,
        nth_error (td_lines tax_data) i = Some entry /\
        nth_error (lines st') i = Some after /\
        line_set_from Sample.precision Sample.normalize "USD" line_info entry
          after) /\
  totals_recomputed Sample.precision "USD" st'.
Proof.
  apply (tax_data_applied_positionally Sample.precision Sample.normalize
           (Sample.tax_data Sample.tax_lines) (Sample.state false 0)).
  reflexivity.
Defined.

Example tax_data_on_sample :
  let st' :=
    sample_apply_tax_data (Some (Sample.tax_data Sample.tax_lines))
      (Sample.state false 0) in
  map (fun line_info => total_price (line line_info)) (lines st')
  = [mkTaxedMoney (dec 2000 2) (dec 2461 2);
     mkTaxedMoney (dec 1000 2) (dec 1230 2)] /\
  map (fun line_info => tax_rate (line line_info)) (lines st')
  = [dec 23 2; dec 23 2] /\
  subtotal (the_checkout st') = mkTaxedMoney (dec 3000 2) (dec 3691 2) /\
  shipping_price (the_checkout st') = mkTaxedMoney (dec 500 2) (dec 615 2) /\
  total (the_checkout st') = mkTaxedMoney (dec 3500 2) (dec 4306 2).
Proof.
  split; [taxed_list_eq|].
  split; [vm_compute; repeat (apply f_equal2; [decimal_eq|]); reflexivity|].
  split; [taxed_eq|]. split; taxed_eq.
Qed.

(** One entry for two lines: the second line keeps its prices and still
    counts in the subtotal. *)
Lemma tax_data_length_mismatch_witness :
  let tax_data := Sample.tax_data [mkTaxLineData (dec 20004 3) (dec 24605 3) (dec 23 0)] in
  let st := Sample.state false 0 in
  let st' := sample_apply_tax_data (Some tax_data) st in
  List.length (lines st') = List.length (lines st) /\
  (forall (i : nat),
      (i < 1)%nat ->
      exists line_info entry after,
        nth_error (lines st) i = Some line_info /\
        nth_error (td_lines tax_data) i = Some entry /\
        nth_error (lines st') i = Some after /\
        line_set_from Sample.precision Sample.normalize "USD" line_info entry
          after) /\
  (forall (i : nat),
      (1 <= i)%nat -> nth_error (lines st') i = nth_error (lines st) i) /\
  totals_recomputed Sample.precision "USD" st'.
Proof.
  apply (tax_data_length_mismatch Sample.precision Sample.normalize
           (Sample.tax_data
              [mkTaxLineData (dec 20004 3) (dec 24605 3) (dec 23 0)])
           (Sample.state false 0)).
  vm_compute. discriminate.
Defined.

Example short_tax_data_on_sample :
  let st' :=
    sample_apply_tax_data
      (Some (Sample.tax_data
               [mkTaxLineData (dec 20004 3) (dec 24605 3) (dec 23 0)]))
      (Sample.state false 0) in
  map (fun line_info => total_price (line line_info)) (lines st')
  = [mkTaxedMoney (dec 2000 2) (dec 2461 2);
     mkTaxedMoney (dec 1000 2) (dec 1100 2)] /\
  subtotal (the_checkout st') = mkTaxedMoney (dec 3000 2) (dec 3561 2) /\
  total (the_checkout st') = mkTaxedMoney (dec 3500 2) (dec 4176 2).
Proof.
  split; [taxed_list_eq|]. split; taxed_eq.
Qed.



Example flat_rate_totals_on_sample :
  let engine :=
    flat_rates_by_spec Sample.precision
      (fun _ _ _ _ => mkTaxedMoney (dec 2000 2) (dec 2200 2))
      (fun _ _ => dec 10 2)
      (fun _ _ _ => mkTaxedMoney (dec 500 2) (dec 550 2))
      (fun _ _ => dec 10 2) in
  let fetch charge_taxes :=
    fetch_checkout_prices_if_expired Sample.precision Sample.normalize
      Sample.tax_rate_of (fun _ _ => FLAT_RATES) (fun _ _ => charge_taxes)
      engine Sample.base Sample.ttl (Sample.manager None) None None false in
  total (the_checkout (fetch true (Sample.state false 0)))
  = mkTaxedMoney (dec 4500 2) (dec 4950 2) /\
  total (the_checkout (fetch false (Sample.state true 0)))
  = mkTaxedMoney (dec 4500 2) (dec 4500 2).
Proof.
  split; taxed_eq.
Qed.

(** C7 as stated fails on the plugin per-call path: the manager prices a
    line at 10.005 net and 12.345 gross, quantizing to USD would give 10.01
    and 12.35, and the line stores 10.005 and 12.345. *)
Lemma plugin_prices_are_stored_unquantized :
  let st' :=
    sample_fetch TAX_APP true (Sample.manager None) None None false
      (Sample.state false 0) in
  map (fun line_info => total_price (line line_info)) (lines st')
  = [mkTaxedMoney (dec 10005 3) (dec 12345 3);
     mkTaxedMoney (dec 10005 3) (dec 12345 3)] /\
  quantize_price Sample.precision (mkTaxedMoney (dec 10005 3) (dec 12345 3))
    "USD"
  = mkTaxedMoney (dec 1001 2) (dec 1235 2) /\
  ~ Forall (taxed_is_quantized (Sample.precision "USD")) (stored_money st').
Proof.
  intros st'.
  assert (Hlines :
            map (fun line_info => total_price (line line_info)) (lines st')
            = [mkTaxedMoney (dec 10005 3) (dec 12345 3);
               mkTaxedMoney (dec 10005 3) (dec 12345 3)])
    by taxed_list_eq.
  split; [exact Hlines|]. split; [taxed_eq|].
  unfold stored_money. rewrite Hlines. intros H.
  inversion H as [|? ? _ Ha]. inversion Ha as [|? ? _ Hb].
  inversion Hb as [|? ? _ Hc]. inversion Hc as [|? ? [Hnet _] _].
  unfold is_quantized in Hnet.
  apply (f_equal this) in Hnet. vm_compute in Hnet. discriminate Hnet.
Qed.

(** Tax data with an entry for each of the two lines stores quantized
    values; on the per-call path every stored value is one of the four the
    sample manager returns. *)
Lemma money_is_quantized_where_the_code_quantizes_witness :
  let st := Sample.state false 0 in
  Forall (taxed_is_quantized (Sample.precision "USD"))
    (stored_money
       (sample_apply_tax_data (Some (Sample.tax_data Sample.tax_lines)) st)) /\
  Forall
    (fun v =>
       In v [mkTaxedMoney (dec 10005 3) (dec 12345 3);
             mkTaxedMoney (dec 500 2) (dec 615 2);
             mkTaxedMoney (dec 2001 2) (dec 2469 2);
             mkTaxedMoney (dec 2501 2) (dec 3084 2)])
    (stored_money
       (_apply_tax_data_from_plugins (Sample.manager None) None None st)).
Proof.
  destruct (money_is_quantized_where_the_code_quantizes Sample.precision
              Sample.normalize Sample.tax_rate_of (fun _ _ => TAX_APP)
              (fun _ _ => true) Sample.flat_rates Sample.base Sample.ttl
              (Sample.manager None) None None Sample.line_a []
              (Sample.tax_data Sample.tax_lines) (Sample.state false 0))
    as [_ [_ [Htax Hplugin]]].
  split.
  - apply Htax. vm_compute. lia.
  - apply Hplugin. intros ci ls li address discounts.
    cbn. tauto.
Defined.


Example gift_cards_on_sample :
  fst (calculate_checkout_total_with_gift_cards Sample.precision
         Sample.normalize Sample.tax_rate_of (fun _ _ => TAX_APP)
         (fun _ _ => true) Sample.flat_rates Sample.base Sample.ttl
         Sample.gift_cards (Sample.manager None) None None
         (Sample.state false 2000))
  = mkTaxedMoney (dec 2400 2) (dec 2730 2) /\
  fst (calculate_checkout_total_with_gift_cards Sample.precision
         Sample.normalize Sample.tax_rate_of (fun _ _ => TAX_APP)
         (fun _ _ => true) Sample.flat_rates Sample.base Sample.ttl
         (fun _ => dec 5000 2) (Sample.manager None) None None
         (Sample.state false 2000))
  = mkTaxedMoney 0%Qc 0%Qc.
Proof.
  split; taxed_eq.
Qed.

(** The line of key 1 holds a total of 20.00 net and 22.00 gross for a
    quantity of 2. *)
Lemma line_unit_price_divides_total_witness :
  let st := Sample.state false 2000 in
  checkout_line_unit_price Sample.precision Sample.normalize
    Sample.tax_rate_of (fun _ _ => TAX_APP) (fun _ _ => true)
    Sample.flat_rates Sample.base Sample.ttl (Sample.manager None)
    Sample.line_a [] st
  = (inr (quantize_price Sample.precision
            (mkTaxedMoney (dec 2000 2 / decimal_of_int 2)%Qc
                          (dec 2200 2 / decimal_of_int 2)%Qc)
            "USD"),
     st).
Proof.
  refine (proj1
            (line_unit_price_divides_total Sample.precision Sample.normalize
               Sample.tax_rate_of (fun _ _ => TAX_APP) (fun _ _ => true)
               Sample.flat_rates Sample.base Sample.ttl (Sample.manager None)
               Sample.line_a [] (Sample.state false 2000) Sample.line_a _) _).
  - reflexivity.
  - reflexivity.
Defined.

Example unit_price_on_sample :
  let empty_line :=
    mkCheckoutLineInfo
      (mkCheckoutLine 3 0 (dec 0 2) (dec 0 2) (dec 0 2)) 73 in
  let stale_line :=
    mkCheckoutLineInfo
      (mkCheckoutLine 4 0 (dec 1000 2) (dec 1100 2) (dec 10 2)) 74 in
  let st :=
    mkState (Sample.info false 2000) [Sample.line_a; empty_line; stale_line]
      1000 (mkDatabase (Sample.usd_checkout 2000) []) [] in
  let unit_price line_info :=
    fst (checkout_line_unit_price Sample.precision Sample.normalize
           Sample.tax_rate_of (fun _ _ => TAX_APP) (fun _ _ => true)
           Sample.flat_rates Sample.base Sample.ttl (Sample.manager None)
           line_info [] st) in
  (exists v,
      unit_price Sample.line_a = inr v /\
      v = mkTaxedMoney (dec 1000 2) (dec 1100 2)) /\
  unit_price empty_line = inl InvalidOperation /\
  unit_price stale_line = inl DivisionByZero /\
  unit_price Sample.line_b = inl StopIteration.
Proof.
  intros empty_line stale_line st unit_price.
  split; [|split; [|split]; reflexivity].
  eexists. split; [reflexivity|]. taxed_eq.
Qed.

(** ** The further properties on the sample data *)

Local Abbreviation on_sample theorem strategy charge_taxes :=
  (theorem Sample.precision Sample.normalize Sample.tax_rate_of
     (fun _ _ => strategy) (fun _ _ => charge_taxes) Sample.flat_rates
     Sample.base Sample.ttl).

(** A forced recomputation of fresh prices, at time 1000 with a TTL of
    3600. *)
Lemma recomputation_stamps_and_persists_witness :
  let st' :=
    sample_fetch FLAT_RATES true (Sample.manager None) None None true
      (Sample.state false 2000) in
  price_expiration (the_checkout st') = 4600%Z /\
  exists calls : list Event,
    log st' = [] ++ calls ++ persisting_calls st'.
Proof.
  apply (on_sample recomputation_stamps_and_persists FLAT_RATES true
           (Sample.manager None) None None true (Sample.state false 2000)).
  left. reflexivity.
Defined.

(** A recomputation at time 1000 with a TTL of 3600, and a call at 4599;
    at 4600 the prices have expired and the call recomputes. *)
Lemma fetch_within_ttl_changes_nothing_witness :
  let st' :=
    at_time 4599
      (sample_fetch TAX_APP true (Sample.manager None) None None false
         (Sample.state false 0)) in
  sample_fetch TAX_APP true (Sample.manager (Some (Sample.tax_data [])))
    (Some 5%Z) (Some []) false st'
  = st'.
Proof.
  apply (on_sample fetch_within_ttl_changes_nothing TAX_APP true
           (Sample.manager None) (Sample.manager (Some (Sample.tax_data [])))
           None (Some 5%Z) None (Some []) false 4599%Z (Sample.state false 0)).
  - right. vm_compute. discriminate.
  - reflexivity.
Defined.

Example fetch_after_ttl_on_sample :
  let first :=
    sample_fetch TAX_APP true (Sample.manager None) None None false
      (Sample.state false 0) in
  let again (t : datetime) :=
    sample_fetch TAX_APP true (Sample.manager None) None None false
      (at_time t first) in
  List.length (log first) = 13%nat /\
  List.length (log (again 4599%Z)) = 13%nat /\
  List.length (log (again 4600%Z)) = 26%nat.
Proof.
  split; [|split]; reflexivity.
Qed.

Lemma recomputation_persists_prices_witness :
  let st := Sample.state false 0 in
  let st' :=
    sample_fetch TAX_APP true (Sample.manager None) None None false st in
  row_holds (checkout_row (db st')) (the_checkout st') /\
  tax_exemption (checkout_row (db st'))
  = tax_exemption (checkout_row (db st)) /\
  map pk (line_rows (db st')) = map pk (line_rows (db st)) /\
  map quantity (line_rows (db st')) = map quantity (line_rows (db st)) /\
  (forall (line_info : CheckoutLineInfo) (row : CheckoutLine),
      In line_info (lines st') ->
      In row (line_rows (db st')) ->
      pk row = pk (line line_info) ->
      total_price row = total_price (line line_info) /\
      tax_rate row = tax_rate (line line_info)) /\
  (forall row : CheckoutLine,
      In row (line_rows (db st')) ->
      (forall line_info, In line_info (lines st') ->
                         pk (line line_info) <> pk row) ->
      In row (line_rows (db st))).
Proof.
  apply (on_sample recomputation_persists_prices TAX_APP true
           (Sample.manager None) None None false (Sample.state false 0)).
  - right. vm_compute. discriminate.
  - vm_compute.
    apply NoDup_cons; [intros [H|[]]; discriminate H|].
    apply NoDup_cons; [intros []|apply NoDup_nil].
Defined.

Example persisted_rows_on_sample :
  let st' :=
    sample_fetch TAX_APP true (Sample.manager None) None None false
      (Sample.state false 0) in
  map total_price (line_rows (db st'))
  = [mkTaxedMoney (dec 10005 3) (dec 12345 3);
     mkTaxedMoney (dec 10005 3) (dec 12345 3)] /\
  total (checkout_row (db st')) = mkTaxedMoney (dec 2501 2) (dec 3084 2) /\
  price_expiration (checkout_row (db st')) = 4600%Z.
Proof.
  split; [taxed_list_eq|]. split; [taxed_eq|reflexivity].
Qed.

(** Prices entered without tax and charge_taxes off: the base prices. *)
Lemma untaxed_recomputation_has_gross_equal_net_witness :
  money_gross_is_net
    (sample_fetch TAX_APP false (Sample.manager None) None None false
       (Sample.state false 0)) /\
  money_gross_is_net
    (sample_fetch TAX_APP false (Sample.manager None) None None false
       (Sample.state true 0)).
Proof.
  split.
  - apply (on_sample untaxed_recomputation_has_gross_equal_net TAX_APP false
             (Sample.manager None) None None false (Sample.state false 0)).
    + right. vm_compute. discriminate.
    + reflexivity.
  - apply (on_sample untaxed_recomputation_has_gross_equal_net TAX_APP false
             (Sample.manager None) None None false (Sample.state true 0)).
    + right. vm_compute. discriminate.
    + reflexivity.
Defined.

Lemma tax_free_path_calls_base_prices_only_witness :
  let st' :=
    sample_fetch TAX_APP false (Sample.manager None) None None false
      (Sample.state false 0) in
  log st'
  = [] ++ (flat_map (fun _ => base_line_calls) [Sample.line_a; Sample.line_b]
           ++ base_checkout_calls)
    ++ persisting_calls st'.
Proof.
  apply (on_sample tax_free_path_calls_base_prices_only TAX_APP false
           (Sample.manager None) None None false (Sample.state false 0)).
  - right. vm_compute. discriminate.
  - reflexivity.
  - reflexivity.
Defined.

Lemma tax_app_path_calls_the_manager_only_witness :
  let st' :=
    sample_fetch TAX_APP true (Sample.manager None) None None false
      (Sample.state false 0) in
  log st'
  = [] ++ (flat_map (fun _ => plugin_line_calls) [Sample.line_a; Sample.line_b]
           ++ plugin_checkout_calls ++ [PluginCall "get_taxes_for_checkout"])
    ++ persisting_calls st'.
Proof.
  apply (on_sample tax_app_path_calls_the_manager_only TAX_APP true
           (Sample.manager None) None None false (Sample.state false 0)).
  - right. vm_compute. discriminate.
  - reflexivity.
  - right. reflexivity.
Defined.

Example calls_on_sample :
  List.length
    (log (sample_fetch TAX_APP true (Sample.manager None) None None false
            (Sample.state false 0))) = 13%nat /\
  List.length
    (log (sample_fetch TAX_APP false (Sample.manager None) None None false
            (Sample.state false 0))) = 8%nat.
Proof.
  split; reflexivity.
Qed.

Lemma recomputation_changes_prices_only_witness :
  let st := Sample.state true 0 in
  let st' :=
    sample_fetch TAX_APP false (Sample.manager (Some (Sample.tax_data [])))
      None None false st in
  map line_identity (lines st') = map line_identity (lines st) /\
  checkout_frame (the_checkout st') = checkout_frame (the_checkout st) /\
  info_frame (checkout_info st') = info_frame (checkout_info st).
Proof.
  apply (on_sample recomputation_changes_prices_only TAX_APP false
           (Sample.manager (Some (Sample.tax_data []))) None None false
           (Sample.state true 0)).
  discriminate.
Defined.

(** The same tax data applied to the sample state and to the state the
    per-call plugin functions leave. *)
Lemma covering_tax_data_overrides_prices_witness :
  let tax_data := Sample.tax_data Sample.tax_lines in
  let st1 := Sample.state false 0 in
  let st2 :=
    _apply_tax_data_from_plugins (Sample.manager None) None None st1 in
  let after1 := sample_apply_tax_data (Some tax_data) st1 in
  let after2 := sample_apply_tax_data (Some tax_data) st2 in
  stored_money after1 = stored_money after2 /\
  shipping_tax_rate (the_checkout after1)
  = shipping_tax_rate (the_checkout after2) /\
  map (fun line_info => tax_rate (line line_info)) (lines after1)
  = map (fun line_info => tax_rate (line line_info)) (lines after2).
Proof.
  apply (covering_tax_data_overrides_prices Sample.precision Sample.normalize
           (Sample.tax_data Sample.tax_lines) (Sample.state false 0)
           (_apply_tax_data_from_plugins (Sample.manager None) None None
              (Sample.state false 0))).
  - reflexivity.
  - reflexivity.
  - vm_compute. lia.
Defined.

Lemma tax_data_on_checkout_without_lines_witness :
  let st :=
    mkState (Sample.info false 0) [] 1000
      (mkDatabase (Sample.usd_checkout 0) []) [] in
  let st' :=
    sample_apply_tax_data (Some (Sample.tax_data Sample.tax_lines)) st in
  lines st' = [] /\
  subtotal (the_checkout st') = zero_taxed_money "USD" /\
  total (the_checkout st') = shipping_price (the_checkout st').
Proof.
  apply (tax_data_on_checkout_without_lines Sample.precision Sample.normalize
           (Sample.tax_data Sample.tax_lines)
           (mkState (Sample.info false 0) [] 1000
              (mkDatabase (Sample.usd_checkout 0) []) [])).
  reflexivity.
Defined.

Lemma subtotal_ignores_line_order_witness :
  _calculate_checkout_subtotal Sample.precision [Sample.line_a; Sample.line_b]
    "USD"
  = _calculate_checkout_subtotal Sample.precision
      [Sample.line_b; Sample.line_a] "USD".
Proof.
  apply (subtotal_ignores_line_order Sample.precision
           [Sample.line_a; Sample.line_b] [Sample.line_b; Sample.line_a]
           "USD"%string).
  apply perm_swap.
Defined.

Lemma reads_of_fresh_prices_witness :
  let st := Sample.state false 2000 in
  let c := the_checkout st in
  checkout_shipping_price Sample.precision Sample.normalize Sample.tax_rate_of
    (fun _ _ => TAX_APP) (fun _ _ => true) Sample.flat_rates Sample.base
    Sample.ttl (Sample.manager None) None None st
  = (quantize_price Sample.precision (shipping_price c) "USD", st).
Proof.
  refine (proj1
            (on_sample reads_of_fresh_prices TAX_APP true Sample.gift_cards
               (Sample.manager None) None None (Sample.state false 2000) _)).
  reflexivity.
Defined.

(** The manager answers the consolidated call with tax data for both
    lines; the tax is charged, or removed. *)
Lemma tax_app_total_is_subtotal_plus_shipping_witness :
  let manager := Sample.manager (Some (Sample.tax_data Sample.tax_lines)) in
  total_identity Sample.precision "USD"
    (the_checkout
       (sample_fetch TAX_APP true manager None None false
          (Sample.state false 0))) /\
  total_identity Sample.precision "USD"
    (the_checkout
       (sample_fetch TAX_APP false manager None None false
          (Sample.state true 0))).
Proof.
  split.
  - apply (on_sample tax_app_total_is_subtotal_plus_shipping TAX_APP true
             (Sample.manager (Some (Sample.tax_data Sample.tax_lines))) None
             None false (Sample.tax_data Sample.tax_lines)
             (Sample.state false 0)).
    + right. vm_compute. discriminate.
    + reflexivity.
    + right. reflexivity.
    + reflexivity.
  - apply (on_sample tax_app_total_is_subtotal_plus_shipping TAX_APP false
             (Sample.manager (Some (Sample.tax_data Sample.tax_lines))) None
             None false (Sample.tax_data Sample.tax_lines)
             (Sample.state true 0)).
    + right. vm_compute. discriminate.
    + reflexivity.
    + left. reflexivity.
    + reflexivity.
Defined.

Example tax_app_totals_on_sample :
  let manager := Sample.manager (Some (Sample.tax_data Sample.tax_lines)) in
  total
    (the_checkout
       (sample_fetch TAX_APP true manager None None false
          (Sample.state false 0)))
  = mkTaxedMoney (dec 3500 2) (dec 4306 2) /\
  total
    (the_checkout
       (sample_fetch TAX_APP false manager None None false
          (Sample.state true 0)))
  = mkTaxedMoney (dec 3500 2) (dec 3500 2).
Proof.
  split; taxed_eq.
Qed.
